(** * Voice AI Assistant API: the request pipeline of [main.py]

    A shallow embedding of the FastAPI backend of the voice assistant:
    [transcribe_audio], [process_query], [chat_voice] and [chat_text],
    together with the Python values, exceptions and collaborators
    (Whisper engine, LangChain agent, temp-file storage) they touch.

    Conventions.
    - A Python [str] is a [string]; a character is a code point below 256.
    - A Python [dict] with string keys is a [gmap string PyVal].
    - A function that may raise returns an [Outcome]; a function that also
      touches the file system runs in the monad [M] over a [World].
    - [logger.info] / [logger.error] calls leave no trace in the model. *)

From Stdlib Require Import ZArith Ascii.
From stdpp Require Import gmap strings list.

Local Set Warnings "-register-all".

(** ** Python values and exceptions *)

(** The values an external collaborator hands back: [None], a [str], a
    sequence ([list] or [tuple]) and a plain object with named data
    attributes (such as LangChain's [AgentAction]). *)
Inductive PyVal : Type :=
| PyNone
| PyStr (s : string)
| PySeq (items : list PyVal)
| PyObj (attrs : list (string * PyVal)).

(** Exceptions.  [HTTPException] is FastAPI's; every other subclass of
    [Exception] (TypeError, KeyError, OSError, ValidationError, ...) is
    [Exception cls].  Both are instances of Python's [Exception], so an
    [except Exception] clause catches either.  Interpreter signals that
    are not [Exception]s (KeyboardInterrupt, SystemExit) end the process
    and are not faults of a request. *)
Inductive PyExc : Type :=
| HTTPException (status_code : Z) (detail : string)
| Exception (cls : string).

Inductive Outcome (A : Type) : Type :=
| Return (a : A)
| Raise (e : PyExc).
Arguments Return {A} a.
Arguments Raise {A} e.

Definition is_HTTPException (e : PyExc) : bool :=
  match e with HTTPException _ _ => true | Exception _ => false end.

(** ** String methods used by the handlers *)

(** [str.endswith(suffix)]: case-sensitive comparison of the tail. *)
Fixpoint endswith (s suffix : string) : bool :=
  String.eqb s suffix ||
  match s with
  | EmptyString => false
  | String _ s' => endswith s' suffix
  end.

(** [str.endswith(tuple)]: true when some member of the tuple is a suffix. *)
Definition endswith_any (s : string) (suffixes : list string) : bool :=
  existsb (endswith s) suffixes.

(** Whitespace as [str.strip()] sees it, for code points below 256:
    TAB..CR, FS..US, SPACE, NEL and NBSP. *)
Definition isspace (c : ascii) : bool :=
  let n := Ascii.nat_of_ascii c in
  ((9 <=? n) && (n <=? 13)) || ((28 <=? n) && (n <=? 32)) ||
  (n =? 133) || (n =? 160).

Fixpoint lstrip (s : string) : string :=
  match s with
  | EmptyString => EmptyString
  | String c s' => if isspace c then lstrip s' else s
  end.

Fixpoint rstrip (s : string) : string :=
  match s with
  | EmptyString => EmptyString
  | String c s' =>
      match rstrip s' with
      | EmptyString => if isspace c then EmptyString else String c EmptyString
      | r => String c r
      end
  end.

Definition strip (s : string) : string := rstrip (lstrip s).

Fixpoint all_space (s : string) : bool :=
  match s with
  | EmptyString => true
  | String c s' => isspace c && all_space s'
  end.

(** [os.path.splitext(p)[1]] on POSIX: the extension starts at the last
    dot of the last path component, unless that component has only
    leading dots before it. *)
Fixpoint ext_of_component (seen_non_dot : bool) (s : string) : string :=
  match s with
  | EmptyString => EmptyString
  | String c s' =>
      let later := ext_of_component (seen_non_dot || negb (Ascii.eqb c "."%char)) s' in
      match later with
      | EmptyString => if Ascii.eqb c "."%char && seen_non_dot then s else EmptyString
      | _ => later
      end
  end.

Fixpoint last_component (s : string) : string :=
  match s with
  | EmptyString => EmptyString
  | String c s' =>
      if existsb (Ascii.eqb "/"%char) (String.list_ascii_of_string s') then last_component s'
      else if Ascii.eqb c "/"%char then s' else s
  end.

Definition splitext_ext (p : string) : string :=
  ext_of_component false (last_component p).

(** ** Dynamic operations on collaborator values *)

(** [d.get(key, default)] *)
Definition dict_get (d : gmap string PyVal) (key : string) (default : PyVal) : PyVal :=
  match d !! key with
  | Some v => v
  | None => default
  end.

(** [iter(v)]: the items a [for] loop over [v] visits. *)
Fixpoint chars (s : string) : list PyVal :=
  match s with
  | EmptyString => []
  | String c s' => PyStr (String c EmptyString) :: chars s'
  end.

Definition py_iter (v : PyVal) : Outcome (list PyVal) :=
  match v with
  | PySeq items => Return items
  | PyStr s => Return (chars s)
  | PyNone | PyObj _ => Raise (Exception "TypeError")
  end.

(** [v[0]] *)
Definition getitem0 (v : PyVal) : Outcome PyVal :=
  match v with
  | PySeq (x :: _) => Return x
  | PyStr (String c _) => Return (PyStr (String c EmptyString))
  | PySeq [] | PyStr EmptyString => Raise (Exception "IndexError")
  | PyNone | PyObj _ => Raise (Exception "TypeError")
  end.

Fixpoint assoc (name : string) (attrs : list (string * PyVal)) : option PyVal :=
  match attrs with
  | [] => None
  | (k, v) :: rest => if String.eqb k name then Some v else assoc name rest
  end.

(** [v.name] for a data attribute. *)
Definition getattr (v : PyVal) (name : string) : Outcome PyVal :=
  match v with
  | PyObj attrs =>
      match assoc name attrs with
      | Some x => Return x
      | None => Raise (Exception "AttributeError")
      end
  | _ => Raise (Exception "AttributeError")
  end.

(** [v == s] for a string literal [s]. *)
Definition eq_str (v : PyVal) (s : string) : bool :=
  match v with
  | PyStr t => String.eqb t s
  | _ => false
  end.

(** [v.strip()]: only a [str] has the method. *)
Definition str_strip (v : PyVal) : Outcome string :=
  match v with
  | PyStr s => Return (strip s)
  | _ => Raise (Exception "AttributeError")
  end.

(** ** The world a request runs in *)

(** Calls on collaborators, recorded the way a test double counts them.
    The most recent call is at the head of the list. *)
Inductive Event : Type :=
| TempFileCreated (path : string)
| EngineCalled (path : string)
| Unlinked (path : string)
| RouterCalled (query : string)
| AgentInvoked (query : string).

(** The file system (path to contents) and the call record. *)
Record World : Type := mkWorld {
  files : gmap string string;
  calls : list Event
}.

(** Stateful code that may raise: the world is threaded through, and an
    exception keeps the effects made before it was raised. *)
Definition M (A : Type) : Type := World -> Outcome A * World.

Definition ret {A} (a : A) : M A := fun w => (Return a, w).

Definition raise {A} (e : PyExc) : M A := fun w => (Raise e, w).

Definition bind {A B} (m : M A) (k : A -> M B) : M B :=
  fun w =>
    match m w with
    | (Return a, w') => k a w'
    | (Raise e, w') => (Raise e, w')
    end.

Definition lift {A} (o : Outcome A) : M A := fun w => (o, w).

(** [try: body / except ... as e: handler e] *)
Definition try_except {A} (body : M A) (handler : PyExc -> M A) : M A :=
  fun w =>
    match body w with
    | (Return a, w') => (Return a, w')
    | (Raise e, w') => handler e w'
    end.

Definition record (ev : Event) : M unit :=
  fun w => (Return tt, mkWorld (files w) (ev :: calls w)).

Global Instance M_ret : MRet M := @ret.
Global Instance M_bind : MBind M := fun A B k m => bind m k.

(** The number of times [process_query] was entered. *)
Fixpoint router_calls (evs : list Event) : nat :=
  match evs with
  | [] => 0
  | RouterCalled _ :: rest => S (router_calls rest)
  | _ :: rest => router_calls rest
  end.

(** The number of times [agent_executor.invoke] was called. *)
Fixpoint agent_calls (evs : list Event) : nat :=
  match evs with
  | [] => 0
  | AgentInvoked _ :: rest => S (agent_calls rest)
  | _ :: rest => agent_calls rest
  end.

(** ** Module globals and collaborators *)

(** [whisper_model] and [agent_executor] are the module globals: [None]
    until [initialize_models] has assigned them.  The Whisper engine is a
    function of the audio bytes stored at the path it is given, the agent
    a function of the query; either may raise.  The remaining fields are
    the operating system's answers to the storage calls. *)
Record Env : Type := mkEnv {
  whisper_model : option (string -> Outcome (gmap string PyVal));
  agent_executor : option (string -> Outcome (gmap string PyVal));
  tmp_stem : gmap string string -> string;
  create_fault : option PyExc;
  write_fault : option PyExc;
  unlink_fault : option string
}.

(** [UploadFile]: the client's file name and what [await file.read()]
    yields. *)
Record UploadFile : Type := mkUpload {
  filename : string;
  read : Outcome string
}.

Record TextRequest : Type := mkText { text : string }.

Record VoiceResponse : Type := mkVoice {
  transcript : string;
  response : string;
  search_triggered : bool
}.

(** The dict [process_query] returns: its ["response"] entry is whatever
    value the agent put under ["output"]. *)
Record QueryResult : Type := mkQuery {
  q_response : PyVal;
  q_search_triggered : bool
}.

(** [VoiceResponse(transcript=..., response=..., search_triggered=...)]:
    pydantic accepts a [str] for [response] and rejects [None],
    sequences and plain objects. *)
Definition VoiceResponse_new (t : string) (r : PyVal) (st : bool) : M VoiceResponse :=
  match r with
  | PyStr s => ret (mkVoice t s st)
  | _ => raise (Exception "ValidationError")
  end.

(** [tempfile.NamedTemporaryFile(delete=False, suffix=suffix)]: creates
    an empty file under a name that did not exist. *)
Definition NamedTemporaryFile (env : Env) (suffix : string) : M string :=
  fun w =>
    match create_fault env with
    | Some e => (Raise e, w)
    | None =>
        let name := tmp_stem env (files w) +:+ suffix in
        match files w !! name with
        | Some _ => (Raise (Exception "FileExistsError"), w)
        | None =>
            (Return name,
             mkWorld (<[name := ""]> (files w)) (TempFileCreated name :: calls w))
        end
    end.

(** [tmp.write(content)] followed by the close at the end of [with]. *)
Definition tmp_write (env : Env) (path content : string) : M unit :=
  fun w =>
    match write_fault env with
    | Some e => (Raise e, w)
    | None => (Return tt, mkWorld (<[path := content]> (files w)) (calls w))
    end.

(** [os.unlink(path)] *)
Definition os_unlink (env : Env) (path : string) : M unit :=
  fun w =>
    match unlink_fault env with
    | Some cls => (Raise (Exception cls), w)
    | None =>
        match files w !! path with
        | None => (Raise (Exception "FileNotFoundError"), w)
        | Some _ => (Return tt, mkWorld (delete path (files w)) (Unlinked path :: calls w))
        end
    end.

(** [whisper_model.transcribe(file_path, language="en")] *)
Definition model_transcribe (model : string -> Outcome (gmap string PyVal))
    (file_path : string) : M (gmap string PyVal) :=
  fun w =>
    let w' := mkWorld (files w) (EngineCalled file_path :: calls w) in
    match files w !! file_path with
    | None => (Raise (Exception "RuntimeError"), w')
    | Some audio => (model audio, w')
    end.

(** [agent_executor.invoke({"input": query})] *)
Definition agent_invoke (agent : string -> Outcome (gmap string PyVal))
    (query : string) : M (gmap string PyVal) :=
  fun w => (agent query, mkWorld (files w) (AgentInvoked query :: calls w)).

(** ** The handlers of [main.py] *)

Definition NOT_READY : PyExc := HTTPException 503 "Models not initialized yet".
Definition CLARIFY : string := "I didn't catch that. Could you please repeat?".
Definition FALLBACK : string := "I couldn't process that request.".
Definition APOLOGY : string := "I encountered an error processing your request.".
Definition SEARCH_TOOL : string := "WebSearch".
Definition ALLOWED : list string := [".wav"; ".mp3"; ".ogg"; ".flac"].

(** [def transcribe_audio(file_path)] *)
Definition transcribe_audio (env : Env) (file_path : string) : M string :=
  match whisper_model env with
  | None => raise NOT_READY
  | Some model =>
      try_except
        (result ← model_transcribe model file_path;
         lift (str_strip (dict_get result "text" (PyStr ""))))
        (fun _ => raise (HTTPException 500 "Audio processing failed"))
  end.

(** [any(step[0].tool == "WebSearch" for step in steps)]: the generator
    is consumed up to the first true comparison; a step that cannot be
    indexed, or whose first item has no [tool], raises there. *)
Fixpoint any_search (steps : list PyVal) : Outcome bool :=
  match steps with
  | [] => Return false
  | step :: rest =>
      match getitem0 step with
      | Raise e => Raise e
      | Return action =>
          match getattr action "tool" with
          | Raise e => Raise e
          | Return t =>
              if eq_str t SEARCH_TOOL then Return true else any_search rest
          end
      end
  end.

(** The two statements of [process_query] after the agent has answered. *)
Definition assemble (result : gmap string PyVal) : Outcome QueryResult :=
  match py_iter (dict_get result "intermediate_steps" (PySeq [])) with
  | Raise e => Raise e
  | Return steps =>
      match any_search steps with
      | Raise e => Raise e
      | Return st => Return (mkQuery (dict_get result "output" (PyStr FALLBACK)) st)
      end
  end.

(** [def process_query(query)] *)
Definition process_query (env : Env) (query : string) : M QueryResult :=
  record (RouterCalled query);;
  match agent_executor env with
  | None => raise NOT_READY
  | Some agent =>
      try_except
        (if String.eqb query "" then ret (mkQuery (PyStr CLARIFY) false)
         else
           result ← agent_invoke agent query;
           lift (assemble result))
        (fun _ => ret (mkQuery (PyStr APOLOGY) false))
  end.

(** The first [try] block of [chat_voice]: the body of the [with]. *)
Definition save_upload (env : Env) (file : UploadFile) : M string :=
  tmp ← NamedTemporaryFile env (splitext_ext (filename file));
  content ← lift (read file);
  tmp_write env tmp content;;
  ret tmp.

(** [async def chat_voice(file)] *)
Definition chat_voice (env : Env) (file : UploadFile) : M VoiceResponse :=
  if negb (endswith_any (filename file) ALLOWED) then
    raise (HTTPException 400
             "Unsupported file format. Supported formats: WAV, MP3, OGG, FLAC")
  else
    tmp_path ← try_except (save_upload env file)
                 (fun _ => raise (HTTPException 500 "File upload failed"));
    try_except
      (transcript ← transcribe_audio env tmp_path;
       os_unlink env tmp_path;;
       if String.eqb transcript "" then
         VoiceResponse_new "" (PyStr CLARIFY) false
       else
         result ← process_query env transcript;
         VoiceResponse_new transcript (q_response result) (q_search_triggered result))
      (fun e =>
         if is_HTTPException e then raise e
         else raise (HTTPException 500 "Internal server error")).

(** [async def chat_text(request)] *)
Definition chat_text (env : Env) (request : TextRequest) : M VoiceResponse :=
  result ← process_query env (text request);
  VoiceResponse_new (text request) (q_response result) (q_search_triggered result).

(** The routes registered on [app]. *)
Inductive Request : Type :=
| PostChatVoice (file : UploadFile)
| PostChatText (request : TextRequest).

Definition app (env : Env) (rq : Request) : M VoiceResponse :=
  match rq with
  | PostChatVoice file => chat_voice env file
  | PostChatText request => chat_text env request
  end.

(** ** Vocabulary of the properties *)

(** A file name is supported when it is some stem followed by one of
    the allowed extensions, compared case-sensitively. *)
Definition supported (name : string) : Prop :=
  exists stem ext, In ext ALLOWED /\ name = stem +:+ ext.

(** The invocation trace of an agent result: the sequence stored under
    ["intermediate_steps"], empty when the key is absent. *)
Definition trace_of (result : gmap string PyVal) : option (list PyVal) :=
  match result !! "intermediate_steps" with
  | None => Some []
  | Some (PySeq entries) => Some entries
  | Some _ => None
  end.

(** The tool identifier of a trace entry [(action, observation)]. *)
Definition entry_tool (entry : PyVal) : option PyVal :=
  match entry with
  | PySeq (PyObj attrs :: _) => assoc "tool" attrs
  | _ => None
  end.

Definition names_search (entry : PyVal) : bool :=
  match entry_tool entry with
  | Some t => eq_str t SEARCH_TOOL
  | None => false
  end.

(** *** What each stage computes

    The outcome of a stage is a function of the globals and of the data
    it is given; the world only gains entries in its call record. *)

Definition AUDIO_FAILED : PyExc := HTTPException 500 "Audio processing failed".
Definition INTERNAL : PyExc := HTTPException 500 "Internal server error".

Definition heard (env : Env) (audio : string) : Outcome string :=
  match whisper_model env with
  | None => Raise NOT_READY
  | Some model =>
      match model audio with
      | Raise _ => Raise AUDIO_FAILED
      | Return result =>
          match str_strip (dict_get result "text" (PyStr "")) with
          | Raise _ => Raise AUDIO_FAILED
          | Return t => Return t
          end
      end
  end.

Definition routed (env : Env) (query : string) : Outcome QueryResult :=
  match agent_executor env with
  | None => Raise NOT_READY
  | Some agent =>
      if String.eqb query "" then Return (mkQuery (PyStr CLARIFY) false)
      else
        match agent query with
        | Raise _ => Return (mkQuery (PyStr APOLOGY) false)
        | Return result =>
            match assemble result with
            | Raise _ => Return (mkQuery (PyStr APOLOGY) false)
            | Return r => Return r
            end
        end
  end.

Definition engine_record (env : Env) (path : string) : list Event :=
  match whisper_model env with
  | None => []
  | Some _ => [EngineCalled path]
  end.

Definition agent_record (env : Env) (query : string) : list Event :=
  match agent_executor env with
  | None => []
  | Some _ => if String.eqb query "" then [] else [AgentInvoked query]
  end.

(** The answer to a voice request whose upload was stored, as a function
    of the globals and the audio bytes. *)
Definition respond (t : string) (r : QueryResult) : Outcome VoiceResponse :=
  match q_response r with
  | PyStr s => Return (mkVoice t s (q_search_triggered r))
  | _ => Raise INTERNAL
  end.

Definition answer (env : Env) (audio : string) : Outcome VoiceResponse :=
  match heard env audio with
  | Raise e => Raise e
  | Return t =>
      match unlink_fault env with
      | Some _ => Raise INTERNAL
      | None =>
          if String.eqb t "" then Return (mkVoice "" CLARIFY false)
          else
            match routed env t with
            | Raise e => Raise e
            | Return r => respond t r
            end
      end
  end.

(** The world it leaves behind, from the world [w1] after storage. *)
Definition aftermath (env : Env) (tmp audio : string) (w1 : World) : World :=
  let w2 := mkWorld (files w1) (engine_record env tmp ++ calls w1) in
  match heard env audio with
  | Raise _ => w2
  | Return t =>
      match unlink_fault env with
      | Some _ => w2
      | None =>
          let w3 := mkWorld (delete tmp (files w1)) (Unlinked tmp :: calls w2) in
          if String.eqb t "" then w3
          else mkWorld (files w3) (agent_record env t ++ RouterCalled t :: calls w3)
      end
  end.

(** ** Collaborator stubs used in the examples *)

Definition action (tool : string) : PyVal :=
  PyObj [("tool", PyStr tool); ("tool_input", PyStr "q"); ("log", PyStr "")].
Definition step (tool : string) : PyVal := PySeq [action tool; PyStr "observation"].

Definition w0 : World := mkWorld ∅ [].

Definition stub_env (heard : string) (answer : gmap string PyVal) : Env :=
  mkEnv (Some (fun _ => Return {["text" := PyStr heard]}))
        (Some (fun _ => Return answer))
        (fun _ => "/tmp/tmpa1b2c3") None None None.

Definition two_tool_answer : gmap string PyVal :=
  {[ "output" := PyStr "Sunny, 18 C";
     "intermediate_steps" := PySeq [step "Calculator"; step "WebSearch"] ]}.

Definition failing_agent_env : Env :=
  mkEnv (Some (fun _ => Return {["text" := PyStr "hello"]}))
        (Some (fun _ => Raise (Exception "TimeoutError")))
        (fun _ => "/tmp/tmpa1b2c3") None None None.

Definition silence_env : Env := stub_env "   " {["output" := PyStr "unused"]}.
Definition clip : UploadFile := mkUpload "clip.wav" (Return "RIFF").

(** The engine is loaded, the agent is not. *)
Definition half_ready_env : Env :=
  mkEnv (Some (fun _ => Return {["text" := PyStr ""]})) None
        (fun _ => "/tmp/tmpa1b2c3") None None None.

(** Nothing is loaded yet. *)
Definition cold_env : Env :=
  mkEnv None None (fun _ => "/tmp/tmpa1b2c3") None None None.

(** The agent hands back [None] as its output. *)
Definition none_output_env : Env := stub_env "hello" {["output" := PyNone]}.

(** [os.unlink] is refused. *)
Definition locked_tmp_env : Env :=
  mkEnv (Some (fun _ => Return {["text" := PyStr "hello"]}))
        (Some (fun _ => Return {["output" := PyStr "Hi!"]}))
        (fun _ => "/tmp/tmpa1b2c3") None None (Some "PermissionError").

Definition greeting_env : Env := stub_env " hello " {["output" := PyStr "Hi!"]}.

Definition empty_output_env : Env := stub_env "" {["output" := PyStr ""]}.
Definition no_output_env : Env := stub_env "" ∅.

(** The engine cannot decode the clip. *)
Definition deaf_env : Env :=
  mkEnv (Some (fun _ => Raise (Exception "RuntimeError")))
        (Some (fun _ => Return {["output" := PyStr "Hi!"]}))
        (fun _ => "/tmp/tmpa1b2c3") None None None.

(** *** Further stubs *)

Definition padded_env : Env := stub_env "  turn on the lights  " {["output" := PyStr "Done"]}.
Definition stored_clip : World := mkWorld {["/tmp/a.wav" := "RIFF"]} [].

(** The engine answers with an error of its own. *)
Definition teapot_env : Env :=
  mkEnv (Some (fun _ => Raise (HTTPException 418 "I'm a teapot")))
        None (fun _ => "/tmp/tmpa1b2c3") None None None.

(** A trace entry that carries a tool identifier other than the search
    tool's. *)
Definition other_tool (entry : PyVal) : Prop :=
  exists t, entry_tool entry = Some t /\ eq_str t SEARCH_TOOL = false.

Definition blank_text_env : Env := stub_env "" {["output" := PyStr "Could you say more?"]}.

(** The search entry comes first, then an entry that is no pair. *)
Definition search_then_junk : gmap string PyVal :=
  {[ "output" := PyStr "Sunny";
     "intermediate_steps" := PySeq [step "Calculator"; step "WebSearch"; PyNone] ]}.

(** An entry that is no pair comes before the search entry. *)
Definition junk_then_search : gmap string PyVal :=
  {[ "output" := PyStr "Sunny";
     "intermediate_steps" := PySeq [step "Calculator"; PyNone; step "WebSearch"] ]}.

(** Reading the upload fails half way. *)
Definition broken_upload : UploadFile := mkUpload "clip.wav" (Raise (Exception "ClientDisconnect")).

Definition busy_tmp : World := mkWorld {["/tmp/other.dat" := "keep"]} [].

(** ** Start-up: [initialize_models] *)

(** The objects the start-up code builds.  A language-model client maps
    a prompt to a completion, the search wrapper is seen through its
    [run] method, and the engine and the agent are as in [Env]. *)
Definition ChatModel : Type := string -> Outcome string.

(** [langchain.agents.Tool] *)
Record Tool : Type := mkTool {
  tool_name : string;
  tool_func : string -> Outcome string;
  tool_description : string
}.

(** The environment variables read at import time; [os.getenv] yields
    [None] for an unset one. *)
Record Settings : Type := mkSettings {
  GROQ_API_KEY : option string;
  SERPER_API_KEY : option string;
  WHISPER_MODEL_SIZE : option string
}.

(** The constructors of the libraries, each of which may raise.
    [ChatGroq] takes the model name, the temperature in tenths and the
    key; [initialize_agent] takes the tools, the client, the agent kind,
    [verbose] and [return_intermediate_steps]. *)
Record Libraries : Type := mkLibraries {
  load_model : option string -> Outcome (string -> Outcome (gmap string PyVal));
  ChatGroq : string -> Z -> option string -> Outcome ChatModel;
  GoogleSerperAPIWrapper : option string -> Outcome (string -> Outcome string);
  initialize_agent :
    list Tool -> ChatModel -> string -> bool -> bool ->
    Outcome (string -> Outcome (gmap string PyVal))
}.

(** The four module globals. *)
Record Globals : Type := mkGlobals {
  g_whisper_model : option (string -> Outcome (gmap string PyVal));
  g_groq_llm : option ChatModel;
  g_search_tool : option (string -> Outcome string);
  g_agent_executor : option (string -> Outcome (gmap string PyVal))
}.

(** Their values when the module has just been imported. *)
Definition unset_globals : Globals := mkGlobals None None None None.

Definition SEARCH_DESCRIPTION : string :=
  "Useful for answering questions about current events, products, or topics requiring up-to-date information. Use when user asks about things that might change frequently or when you need recent data.".

(** [async def initialize_models()]: four assignments in a row; an
    exception of a constructor ends the coroutine and leaves the
    remaining globals as they were. *)
Definition initialize_models (lib : Libraries) (cfg : Settings) (g : Globals)
    : Outcome unit * Globals :=
  match load_model lib (WHISPER_MODEL_SIZE cfg) with
  | Raise e => (Raise e, g)
  | Return engine =>
      let g1 := mkGlobals (Some engine) (g_groq_llm g) (g_search_tool g)
                          (g_agent_executor g) in
      match ChatGroq lib "llama3-70b-8192" 7 (GROQ_API_KEY cfg) with
      | Raise e => (Raise e, g1)
      | Return llm =>
          let g2 := mkGlobals (g_whisper_model g1) (Some llm) (g_search_tool g1)
                              (g_agent_executor g1) in
          match GoogleSerperAPIWrapper lib (SERPER_API_KEY cfg) with
          | Raise e => (Raise e, g2)
          | Return search =>
              let g3 := mkGlobals (g_whisper_model g2) (g_groq_llm g2) (Some search)
                                  (g_agent_executor g2) in
              let tools := [mkTool "WebSearch" search SEARCH_DESCRIPTION] in
              match initialize_agent lib tools llm "zero-shot-react-description"
                      true true with
              | Raise e => (Raise e, g3)
              | Return agent =>
                  (Return tt,
                   mkGlobals (g_whisper_model g3) (g_groq_llm g3) (g_search_tool g3)
                             (Some agent))
              end
          end
      end
  end.

(** The handlers read the globals [g]; the operating system answers as
    in [os]. *)
Definition with_globals (g : Globals) (os : Env) : Env :=
  mkEnv (g_whisper_model g) (g_agent_executor g)
        (tmp_stem os) (create_fault os) (write_fault os) (unlink_fault os).

(** ** The front end: [process_audio] of [streamlitapp.py] *)

(** A parsed JSON body, as [response.json()] hands it back: [JNull] is
    Python's [None]. *)
Inductive Json : Type :=
| JNull
| JBool (b : bool)
| JNum (n : Z)
| JStr (s : string)
| JArr (items : list Json)
| JObj (members : list (string * Json)).

(** [requests.Response]: [json()] may raise on a body that is no JSON. *)
Record HttpResponse : Type := mkResponse {
  status_code : Z;
  resp_text : string;
  resp_json : Outcome Json
}.

(** The calls of [st.error], by the message they format. *)
Inductive Notice : Type :=
| BackendError (status : Z) (body : string)
| ConnectionFailed
| ErrorOccurred (e : PyExc).

(** [requests.exceptions.ConnectionError] and its subclasses. *)
Definition is_ConnectionError (e : PyExc) : bool :=
  match e with
  | Exception cls =>
      existsb (String.eqb cls)
        ["requests.exceptions.ConnectionError"; "requests.exceptions.ProxyError";
         "requests.exceptions.SSLError"; "requests.exceptions.ConnectTimeout"]
  | HTTPException _ _ => false
  end.

(** [def process_audio(audio_data, filename="recording.wav")]:
    [post url (filename, audio_data, content_type)] is [requests.post]
    with the one multipart field; the notices shown so far are threaded
    through, the latest first.  The value returned is the parsed body
    itself, so a body [null] and the [return None] of the error paths
    are the same value [JNull]. *)
Definition process_audio
    (post : string -> string * string * string -> Outcome HttpResponse)
    (BACKEND_URL : string) (audio_data filename : string) (shown : list Notice)
    : Outcome Json * list Notice :=
  let attempt :=
    match post (BACKEND_URL +:+ "/chat/voice") (filename, audio_data, "audio/wav") with
    | Raise e => (Raise e, shown)
    | Return response =>
        if (status_code response =? 200)%Z then
          match resp_json response with
          | Raise e => (Raise e, shown)
          | Return data => (Return data, shown)
          end
        else
          (Return JNull,
           BackendError (status_code response) (resp_text response) :: shown)
    end in
  match attempt with
  | (Raise e, shown') =>
      if is_ConnectionError e then (Return JNull, ConnectionFailed :: shown')
      else (Return JNull, ErrorOccurred e :: shown')
  | done => done
  end.



(** *** Stubs for the start-up code and the front end *)

Definition echo_engine : string -> Outcome (gmap string PyVal) :=
  fun _ => Return {["text" := PyStr "hello"]}.
Definition echo_agent : string -> Outcome (gmap string PyVal) :=
  fun _ => Return {["output" := PyStr "Hi!"]}.

(** Every constructor succeeds. *)
Definition good_libraries : Libraries :=
  mkLibraries (fun _ => Return echo_engine)
              (fun _ _ _ => Return (fun prompt => Return prompt))
              (fun _ => Return (fun q => Return q))
              (fun _ _ _ _ _ => Return echo_agent).

(** The Groq key is missing: the client cannot be built. *)
Definition keyless_libraries : Libraries :=
  mkLibraries (fun _ => Return echo_engine)
              (fun _ _ key =>
                 match key with
                 | Some _ => Return (fun prompt => Return prompt)
                 | None => Raise (Exception "GroqError")
                 end)
              (fun _ => Return (fun q => Return q))
              (fun _ _ _ _ _ => Return echo_agent).

Definition no_keys : Settings := mkSettings None None (Some "base").


Definition backend_busy : string -> string * string * string -> Outcome HttpResponse :=
  fun _ _ => Return (mkResponse 503 "{'detail':'Models not initialized yet'}"
                       (Return (JObj [("detail", JStr "Models not initialized yet")]))).

Definition greeting_json : Json :=
  JObj [("transcript", JStr "hello"); ("response", JStr "Hi!");
        ("search_triggered", JBool false)].

Definition backend_ok : string -> string * string * string -> Outcome HttpResponse :=
  fun _ _ => Return (mkResponse 200 "" (Return greeting_json)).

(** The backend answers 200 with the body [null]. *)
Definition backend_null : string -> string * string * string -> Outcome HttpResponse :=
  fun _ _ => Return (mkResponse 200 "null" (Return JNull)).

Ltac run := unfold mbind, M_bind, mret, M_ret, bind, try_except, lift, raise, ret,
  record in *; simpl in *.

(** * Properties *)

(** ** Scenarios *)

Example endswith_wav : endswith "clip.wav" ".wav" = true.
Proof. reflexivity. Qed.
Example endswith_case : endswith "clip.WAV" ".wav" = false.
Proof. reflexivity. Qed.
Example strip_ex : strip "  hi there  " = "hi there".
Proof. reflexivity. Qed.
Example splitext_ex1 : splitext_ext "a/b.c/clip.tar.wav" = ".wav".
Proof. reflexivity. Qed.
Example splitext_ex2 : splitext_ext "dir.d/.wav" = "".
Proof. reflexivity. Qed.
Example splitext_ex3 : splitext_ext "..a.mp3" = ".mp3".
Proof. reflexivity. Qed.

Example scenario_A :
  fst (chat_text (stub_env "" {["output" := PyStr "4"; "intermediate_steps" := PySeq []]})
         (mkText "What is 2+2?") w0)
  = Return (mkVoice "What is 2+2?" "4" false).
Proof. vm_compute. reflexivity. Qed.

Example scenario_B :
  fst (chat_text (stub_env "" {["output" := PyStr "Sunny"; "intermediate_steps" := PySeq [step "WebSearch"]]})
         (mkText "What's the weather in Paris today?") w0)
  = Return (mkVoice "What's the weather in Paris today?" "Sunny" true).
Proof. vm_compute. reflexivity. Qed.

Example scenario_C :
  chat_voice (stub_env "hi" ∅) (mkUpload "clip.mp4" (Return "bytes")) w0
  = (Raise (HTTPException 400
       "Unsupported file format. Supported formats: WAV, MP3, OGG, FLAC"), w0).
Proof. vm_compute. reflexivity. Qed.

Example scenario_voice :
  fst (chat_voice (stub_env " hello " {["output" := PyStr "Hi!"]})
         (mkUpload "clip.wav" (Return "bytes")) w0)
  = Return (mkVoice "hello" "Hi!" false).
Proof. vm_compute. reflexivity. Qed.

(** ** Strings *)

Lemma endswith_unfold (s suffix : string) :
  endswith s suffix =
  String.eqb s suffix ||
  match s with
  | EmptyString => false
  | String _ s' => endswith s' suffix
  end.
Proof. destruct s; reflexivity. Qed.

Lemma endswith_app (p suffix : string) : endswith (p +:+ suffix) suffix = true.
Proof.
  induction p as [|c p IH].
  - change ("" +:+ suffix) with suffix.
    rewrite endswith_unfold, String.eqb_refl. reflexivity.
  - change (String c p +:+ suffix) with (String c (p +:+ suffix)).
    rewrite endswith_unfold, IH. apply orb_true_r.
Qed.

Lemma endswith_inv (s suffix : string) :
  endswith s suffix = true -> exists p, s = p +:+ suffix.
Proof.
  induction s as [|c s IH]; rewrite endswith_unfold; intros H.
  - apply orb_true_iff in H as [H|H]; [|discriminate].
    apply String.eqb_eq in H. exists "". exact H.
  - apply orb_true_iff in H as [H|H].
    + apply String.eqb_eq in H. exists "". exact H.
    + destruct (IH H) as [p ->]. exists (String c p). reflexivity.
Qed.

Lemma endswith_any_supported (name : string) :
  endswith_any name ALLOWED = true <-> supported name.
Proof.
  unfold endswith_any, supported. rewrite existsb_exists. split.
  - intros (ext & Hin & Hend). destruct (endswith_inv _ _ Hend) as [p ->].
    exists p, ext. split; [exact Hin | reflexivity].
  - intros (stem & ext & Hin & ->). exists ext. split; [exact Hin|].
    apply endswith_app.
Qed.

Lemma lstrip_all_space (s : string) : all_space s = true -> lstrip s = "".
Proof.
  induction s as [|c s IH]; simpl; [reflexivity|].
  intros [Hc Hs]%andb_true_iff. rewrite Hc. auto.
Qed.

Lemma strip_all_space (s : string) : all_space s = true -> strip s = "".
Proof. intros H. unfold strip. rewrite lstrip_all_space by exact H. reflexivity. Qed.

Lemma rstrip_empty_inv (s : string) : rstrip s = "" -> all_space s = true.
Proof.
  induction s as [|c s IH]; simpl; [reflexivity|].
  destruct (rstrip s) eqn:Hr; [|discriminate].
  destruct (isspace c); [|discriminate]. intros _. simpl. auto.
Qed.

Lemma lstrip_all_space_inv (s : string) :
  all_space (lstrip s) = true -> all_space s = true.
Proof.
  induction s as [|c s IH]; simpl; [reflexivity|].
  destruct (isspace c) eqn:Hc; simpl; [exact IH|].
  rewrite Hc. discriminate.
Qed.

(** [strip] yields the empty string exactly on whitespace-only input. *)
Lemma strip_empty_iff (s : string) : strip s = "" <-> all_space s = true.
Proof.
  split; [|apply strip_all_space].
  intros H. apply lstrip_all_space_inv, rstrip_empty_inv, H.
Qed.

Lemma transcribe_audio_stored env path audio w :
  files w !! path = Some audio ->
  transcribe_audio env path w =
  (heard env audio, mkWorld (files w) (engine_record env path ++ calls w)).
Proof.
  intros Hf. unfold transcribe_audio, heard, engine_record, model_transcribe.
  destruct (whisper_model env) as [model|]; run.
  - rewrite Hf. destruct (model audio) as [result|e]; [|reflexivity].
    destruct (str_strip _); reflexivity.
  - destruct w; reflexivity.
Qed.

Lemma process_query_run env query w :
  process_query env query w =
  (routed env query,
   mkWorld (files w) (agent_record env query ++ RouterCalled query :: calls w)).
Proof.
  unfold process_query, routed, agent_record, agent_invoke.
  destruct (agent_executor env) as [agent|]; run; [|reflexivity].
  destruct (String.eqb query ""); [reflexivity|]. simpl.
  destruct (agent query) as [result|e]; [|reflexivity].
  destruct (assemble result); reflexivity.
Qed.

Lemma save_upload_inv env file w tmp w1 :
  save_upload env file w = (Return tmp, w1) ->
  exists audio,
    read file = Return audio /\
    files w !! tmp = None /\
    w1 = mkWorld (<[tmp := audio]> (<[tmp := ""]> (files w)))
                 (TempFileCreated tmp :: calls w).
Proof.
  unfold save_upload, NamedTemporaryFile, tmp_write. run.
  destruct (create_fault env); [discriminate|].
  destruct (files w !! _) eqn:Hfresh; [discriminate|].
  destruct (read file) as [audio|]; [|discriminate].
  destruct (write_fault env); [discriminate|].
  intros [= <- <-]. exists audio. auto.
Qed.

Lemma heard_raises_http env audio e :
  heard env audio = Raise e -> is_HTTPException e = true.
Proof.
  unfold heard. destruct (whisper_model env) as [model|]; [|intros [= <-]; reflexivity].
  destruct (model audio) as [result|]; [|intros [= <-]; reflexivity].
  destruct (str_strip _); [discriminate|intros [= <-]; reflexivity].
Qed.

Lemma routed_raises_not_ready env query e :
  routed env query = Raise e -> e = NOT_READY /\ agent_executor env = None.
Proof.
  unfold routed. destruct (agent_executor env) as [agent|]; [|intros [= <-]; auto].
  destruct (String.eqb query ""); [discriminate|].
  destruct (agent query) as [result|]; [|discriminate].
  destruct (assemble result); discriminate.
Qed.

Lemma chat_voice_rejected env file w :
  endswith_any (filename file) ALLOWED = false ->
  chat_voice env file w =
  (Raise (HTTPException 400
     "Unsupported file format. Supported formats: WAV, MP3, OGG, FLAC"), w).
Proof. intros H. unfold chat_voice. rewrite H. reflexivity. Qed.

Lemma chat_voice_upload_failed env file w e w1 :
  endswith_any (filename file) ALLOWED = true ->
  save_upload env file w = (Raise e, w1) ->
  chat_voice env file w = (Raise (HTTPException 500 "File upload failed"), w1).
Proof.
  intros Hok Hsave. unfold chat_voice. rewrite Hok. run. rewrite Hsave. reflexivity.
Qed.

Lemma router_calls_app (l1 l2 : list Event) :
  router_calls (l1 ++ l2) = router_calls l1 + router_calls l2.
Proof.
  induction l1 as [|[] l1 IH]; simpl; try exact IH; try reflexivity.
  rewrite IH. reflexivity.
Qed.

Lemma agent_calls_app (l1 l2 : list Event) :
  agent_calls (l1 ++ l2) = agent_calls l1 + agent_calls l2.
Proof.
  induction l1 as [|[] l1 IH]; simpl; try exact IH; try reflexivity.
  rewrite IH. reflexivity.
Qed.

Lemma engine_record_quiet env path :
  router_calls (engine_record env path) = 0 /\ agent_calls (engine_record env path) = 0.
Proof. unfold engine_record. destruct (whisper_model env); auto. Qed.

(** ** A stored upload

    The facts below share their setting: the file name passed validation
    and the first [try] block stored the upload under [tmp]. *)

Section StoredUpload.
Variables (env : Env) (file : UploadFile) (w : World) (tmp : string) (w1 : World).
Hypothesis Hok : endswith_any (filename file) ALLOWED = true.
Hypothesis Hsave : save_upload env file w = (Return tmp, w1).

Lemma chat_voice_stored :
  exists audio,
    read file = Return audio /\
    files w1 !! tmp = Some audio /\
    chat_voice env file w = (answer env audio, aftermath env tmp audio w1).
Proof.
  destruct (save_upload_inv _ _ _ _ _ Hsave) as (audio & Hread & Hfresh & Hw1).
  assert (Hstored : files w1 !! tmp = Some audio).
  { subst w1. simpl. apply lookup_insert_eq. }
  exists audio. split; [exact Hread|]. split; [exact Hstored|].
  unfold chat_voice. rewrite Hok. run. rewrite Hsave.
  rewrite (transcribe_audio_stored _ _ _ _ Hstored).
  unfold answer, aftermath.
  destruct (heard env audio) as [t|e] eqn:Hheard.
  - unfold os_unlink. simpl.
    destruct (unlink_fault env) as [cls|]; [reflexivity|].
    rewrite Hstored.
    destruct (String.eqb t "") eqn:Ht; [reflexivity|].
    rewrite process_query_run. simpl.
    destruct (routed env t) as [r|e] eqn:Hr.
    + unfold respond, VoiceResponse_new.
      destruct (q_response r); reflexivity.
    + destruct (routed_raises_not_ready _ _ _ Hr) as [-> _]. reflexivity.
  - rewrite (heard_raises_http _ _ _ Hheard). reflexivity.
Qed.

(** A stored upload whose transcript is empty is answered with the
    clarification, after the temp file is unlinked and without entering
    [process_query]. *)
Lemma chat_voice_clarifies audio :
  read file = Return audio ->
  heard env audio = Return "" ->
  unlink_fault env = None ->
  exists w',
    chat_voice env file w = (Return (mkVoice "" CLARIFY false), w') /\
    files w' !! tmp = None /\
    router_calls (calls w') = router_calls (calls w) /\
    agent_calls (calls w') = agent_calls (calls w).
Proof.
  intros Hread Hheard Hunlink.
  destruct chat_voice_stored as (audio' & Hread' & _ & Hrun).
  rewrite Hread in Hread'. injection Hread' as <-.
  destruct (save_upload_inv _ _ _ _ _ Hsave) as (audio' & _ & _ & Hw1).
  unfold answer, aftermath in Hrun. rewrite Hheard, Hunlink in Hrun. simpl in Hrun.
  eexists. split; [exact Hrun|]. simpl.
  destruct (engine_record_quiet env tmp) as [Hr Ha].
  split; [apply lookup_delete_eq|].
  rewrite router_calls_app, agent_calls_app, Hr, Ha. subst w1. simpl. auto.
Qed.

(** When transcription returns and [os.unlink] is not refused, the temp
    file is gone when [chat_voice] ends. *)
Lemma temp_file_removed_after_transcript t :
  fst (transcribe_audio env tmp w1) = Return t ->
  unlink_fault env = None ->
  files (snd (chat_voice env file w)) !! tmp = None.
Proof.
  intros Htr Hunlink.
  destruct chat_voice_stored as (audio & _ & Hst & ->).
  rewrite (transcribe_audio_stored _ _ _ _ Hst) in Htr. simpl in *.
  unfold aftermath. rewrite Htr, Hunlink.
  destruct (String.eqb t ""); simpl; apply lookup_delete_eq.
Qed.

(** When transcription raises, [os.unlink] is never reached: the temp
    file is still there when [chat_voice] ends. *)
Lemma temp_file_kept_after_failure e :
  fst (transcribe_audio env tmp w1) = Raise e ->
  fst (chat_voice env file w) = Raise e /\
  is_Some (files (snd (chat_voice env file w)) !! tmp).
Proof.
  intros Htr.
  destruct chat_voice_stored as (audio & _ & Hst & ->).
  rewrite (transcribe_audio_stored _ _ _ _ Hst) in Htr. simpl in *.
  unfold answer, aftermath. rewrite Htr. simpl. split; [reflexivity|].
  exists audio. exact Hst.
Qed.

End StoredUpload.

(** ** The search flag *)

Lemma eq_str_true (v : PyVal) (s : string) : eq_str v s = true <-> v = PyStr s.
Proof.
  destruct v; simpl; try (split; [discriminate|intros [=]]).
  rewrite String.eqb_eq. split; [intros ->; reflexivity | intros [= ->]; reflexivity].
Qed.

Lemma names_search_true (entry : PyVal) :
  names_search entry = true <-> entry_tool entry = Some (PyStr SEARCH_TOOL).
Proof.
  unfold names_search. destruct (entry_tool entry) as [t|].
  - rewrite eq_str_true. split; [intros ->; reflexivity | intros [= ->]; reflexivity].
  - split; discriminate.
Qed.

Lemma any_search_well_formed (entries : list PyVal) :
  Forall (fun e => is_Some (entry_tool e)) entries ->
  any_search entries = Return (existsb names_search entries).
Proof.
  induction 1 as [|e rest [t Ht] _ IH]; [reflexivity|].
  simpl. unfold names_search at 1. rewrite Ht.
  destruct e as [| |[|[| | |attrs] items]|]; try discriminate.
  simpl in *. rewrite Ht.
  destruct (eq_str t SEARCH_TOOL); [reflexivity|exact IH].
Qed.

Lemma assemble_well_formed (result : gmap string PyVal) (entries : list PyVal) :
  trace_of result = Some entries ->
  Forall (fun e => is_Some (entry_tool e)) entries ->
  assemble result =
  Return (mkQuery (dict_get result "output" (PyStr FALLBACK))
                  (existsb names_search entries)).
Proof.
  intros Htrace Hwf. unfold assemble, trace_of, dict_get in *.
  destruct (result !! "intermediate_steps") as [[| |items|]|]; try discriminate;
    injection Htrace as <-; simpl; rewrite ?any_search_well_formed by assumption;
    reflexivity.
Qed.

(** C1. For an agent result whose trace entries each carry a tool
    identifier, process_query answers with search_triggered true if and
    only if some entry's tool identifier is "WebSearch"; in particular an
    absent trace (read as the empty one) and a trace of other tools give
    false. *)
Theorem search_triggered_iff_websearch
    (env : Env) (agent : string -> Outcome (gmap string PyVal))
    (query : string) (result : gmap string PyVal) (entries : list PyVal) (w : World) :
  agent_executor env = Some agent ->
  query <> "" ->
  agent query = Return result ->
  trace_of result = Some entries ->
  Forall (fun e => is_Some (entry_tool e)) entries ->
  exists r,
    fst (process_query env query w) = Return r /\
    (q_search_triggered r = true <->
     exists e, In e entries /\ entry_tool e = Some (PyStr "WebSearch")) /\
    (result !! "intermediate_steps" = None -> q_search_triggered r = false) /\
    ((forall e, In e entries -> entry_tool e <> Some (PyStr "WebSearch")) ->
     q_search_triggered r = false).
Proof.
  intros Hagent Hq Hans Htrace Hwf.
  exists (mkQuery (dict_get result "output" (PyStr FALLBACK))
                  (existsb names_search entries)).
  assert (Hiff : existsb names_search entries = true <->
                 exists e, In e entries /\ entry_tool e = Some (PyStr "WebSearch")).
  { rewrite existsb_exists. split; intros (e & Hin & He); exists e; split; auto;
      apply names_search_true; exact He. }
  split; [|split; [exact Hiff|split]].
  - rewrite process_query_run. simpl. unfold routed. rewrite Hagent.
    apply String.eqb_neq in Hq. rewrite Hq, Hans.
    rewrite (assemble_well_formed _ _ Htrace Hwf). reflexivity.
  - intros Habsent. simpl. unfold trace_of in Htrace. rewrite Habsent in Htrace.
    injection Htrace as <-. reflexivity.
  - intros Hnone. simpl. apply not_true_iff_false. intros Ht.
    apply Hiff in Ht as (e & Hin & He). exact (Hnone e Hin He).
Qed.

Lemma search_triggered_iff_websearch_witness :
  exists r,
    fst (process_query (stub_env "" two_tool_answer) "weather?" w0) = Return r /\
    (q_search_triggered r = true <->
     exists e, In e [step "Calculator"; step "WebSearch"] /\
               entry_tool e = Some (PyStr "WebSearch")) /\
    (two_tool_answer !! "intermediate_steps" = None -> q_search_triggered r = false) /\
    ((forall e, In e [step "Calculator"; step "WebSearch"] ->
                entry_tool e <> Some (PyStr "WebSearch")) ->
     q_search_triggered r = false).
Proof.
  apply (search_triggered_iff_websearch (stub_env "" two_tool_answer)
           (fun _ => Return two_tool_answer) "weather?" two_tool_answer
           [step "Calculator"; step "WebSearch"] w0).
  - reflexivity.
  - discriminate.
  - reflexivity.
  - vm_compute. reflexivity.
  - repeat constructor; eexists; vm_compute; reflexivity.
Defined.

(** ** Faults of the agent *)

(** C2. With the agent ready and a non-empty query, a fault of the agent
    -- raised by the invocation itself, or by a malformed result while it
    is inspected -- does not leave process_query: it returns the fixed
    apology with search_triggered false. *)
Theorem agent_fault_apology
    (env : Env) (agent : string -> Outcome (gmap string PyVal))
    (query : string) (w : World) :
  agent_executor env = Some agent ->
  query <> "" ->
  (exists e, agent query = Raise e) \/
  (exists result e, agent query = Return result /\ assemble result = Raise e) ->
  process_query env query w =
  (Return (mkQuery (PyStr "I encountered an error processing your request.") false),
   mkWorld (files w) (AgentInvoked query :: RouterCalled query :: calls w)).
Proof.
  intros Hagent Hq Hfault. rewrite process_query_run.
  unfold routed, agent_record. rewrite Hagent.
  apply String.eqb_neq in Hq. rewrite Hq.
  destruct Hfault as [[e He]|(result & e & Hres & He)].
  - rewrite He. reflexivity.
  - rewrite Hres, He. reflexivity.
Qed.

Lemma agent_fault_apology_witness :
  process_query failing_agent_env "hello" w0 =
  (Return (mkQuery (PyStr "I encountered an error processing your request.") false),
   mkWorld (files w0) (AgentInvoked "hello" :: RouterCalled "hello" :: calls w0)).
Proof.
  apply (agent_fault_apology failing_agent_env
           (fun _ => Raise (Exception "TimeoutError")) "hello" w0).
  - reflexivity.
  - discriminate.
  - left. exists (Exception "TimeoutError"). reflexivity.
Defined.

Example malformed_trace_apology :
  fst (process_query (stub_env "" {["output" := PyStr "x"; "intermediate_steps" := PyNone]})
         "hello" w0)
  = Return (mkQuery (PyStr APOLOGY) false).
Proof. vm_compute. reflexivity. Qed.

(** ** The empty transcript *)

Lemma heard_whitespace env model audio result said :
  whisper_model env = Some model ->
  model audio = Return result ->
  dict_get result "text" (PyStr "") = PyStr said ->
  all_space said = true ->
  heard env audio = Return "".
Proof.
  intros Hm Hres Htext Hsp. unfold heard. rewrite Hm, Hres, Htext. simpl.
  rewrite (strip_all_space _ Hsp). reflexivity.
Qed.

(** C3. When the engine's text for a stored upload is empty or only
    whitespace (and unlinking the temp file is not refused),
    transcribe_audio trims it to the empty string, the voice endpoint
    returns exactly the clarification result, and process_query (hence
    the agent) is not called. *)
Theorem empty_transcript_short_circuit
    (env : Env) (model : string -> Outcome (gmap string PyVal))
    (file : UploadFile) (w w1 : World) (tmp audio said : string)
    (result : gmap string PyVal) :
  endswith_any (filename file) ALLOWED = true ->
  save_upload env file w = (Return tmp, w1) ->
  read file = Return audio ->
  whisper_model env = Some model ->
  model audio = Return result ->
  dict_get result "text" (PyStr "") = PyStr said ->
  all_space said = true ->
  unlink_fault env = None ->
  fst (transcribe_audio env tmp w1) = Return "" /\
  exists w',
    chat_voice env file w =
    (Return (mkVoice "" "I didn't catch that. Could you please repeat?" false), w') /\
    router_calls (calls w') = router_calls (calls w) /\
    agent_calls (calls w') = agent_calls (calls w).
Proof.
  intros Hok Hsave Hread Hm Hres Htext Hsp Hunlink.
  pose proof (heard_whitespace _ _ _ _ _ Hm Hres Htext Hsp) as Hheard.
  split.
  - destruct (chat_voice_stored _ _ _ _ _ Hok Hsave) as (audio' & Hread' & Hst & _).
    rewrite Hread in Hread'. injection Hread' as <-.
    rewrite (transcribe_audio_stored _ _ _ _ Hst). exact Hheard.
  - destruct (chat_voice_clarifies _ _ _ _ _ Hok Hsave _ Hread Hheard Hunlink)
      as (w' & Hrun & _ & Hr & Ha).
    exists w'. auto.
Qed.

Lemma empty_transcript_short_circuit_witness :
  fst (transcribe_audio silence_env "/tmp/tmpa1b2c3.wav"
         (snd (save_upload silence_env clip w0))) = Return "" /\
  exists w',
    chat_voice silence_env clip w0 =
    (Return (mkVoice "" "I didn't catch that. Could you please repeat?" false), w') /\
    router_calls (calls w') = router_calls (calls w0) /\
    agent_calls (calls w') = agent_calls (calls w0).
Proof.
  apply (empty_transcript_short_circuit silence_env
           (fun _ => Return {["text" := PyStr "   "]}) clip w0
           (snd (save_upload silence_env clip w0)) "/tmp/tmpa1b2c3.wav" "RIFF" "   "
           {["text" := PyStr "   "]}).
  - reflexivity.
  - vm_compute. reflexivity.
  - reflexivity.
  - reflexivity.
  - reflexivity.
  - vm_compute. reflexivity.
  - reflexivity.
  - reflexivity.
Defined.

(** C10. The clarification is returned for an empty transcript even
    while agent_executor is still None: on this path (the temp file
    unlinked without error) only the engine is consulted and
    process_query is not entered, although process_query itself would
    answer 503 for every query. *)
Theorem clarification_without_agent
    (env : Env) (file : UploadFile) (w w1 : World) (tmp : string) :
  agent_executor env = None ->
  endswith_any (filename file) ALLOWED = true ->
  save_upload env file w = (Return tmp, w1) ->
  fst (transcribe_audio env tmp w1) = Return "" ->
  unlink_fault env = None ->
  fst (chat_voice env file w) =
    Return (mkVoice "" "I didn't catch that. Could you please repeat?" false) /\
  router_calls (calls (snd (chat_voice env file w))) = router_calls (calls w) /\
  forall query w', fst (process_query env query w') =
                   Raise (HTTPException 503 "Models not initialized yet").
Proof.
  intros Hagent Hok Hsave Htr Hunlink.
  destruct (chat_voice_stored _ _ _ _ _ Hok Hsave) as (audio & Hread & Hst & _).
  rewrite (transcribe_audio_stored _ _ _ _ Hst) in Htr. simpl in Htr.
  destruct (chat_voice_clarifies _ _ _ _ _ Hok Hsave _ Hread Htr Hunlink)
    as (w' & Hrun & _ & Hr & _).
  rewrite Hrun. simpl. split; [reflexivity|]. split; [exact Hr|].
  intros query w2. rewrite process_query_run. simpl. unfold routed.
  rewrite Hagent. reflexivity.
Qed.

Lemma clarification_without_agent_witness :
  fst (chat_voice half_ready_env clip w0) =
    Return (mkVoice "" "I didn't catch that. Could you please repeat?" false) /\
  router_calls (calls (snd (chat_voice half_ready_env clip w0))) = router_calls (calls w0) /\
  forall query w', fst (process_query half_ready_env query w') =
                   Raise (HTTPException 503 "Models not initialized yet").
Proof.
  apply (clarification_without_agent half_ready_env clip w0
           (snd (save_upload half_ready_env clip w0)) "/tmp/tmpa1b2c3.wav").
  - reflexivity.
  - reflexivity.
  - vm_compute. reflexivity.
  - vm_compute. reflexivity.
  - reflexivity.
Defined.

(** ** Requests before the models are loaded *)

(** C8. A capability that is still None answers 503 "Models not
    initialized yet": transcribe_audio when whisper_model is None,
    process_query when agent_executor is None; the endpoints pass the 503
    on to their caller. *)
Theorem not_ready_service_unavailable (env : Env) :
  (whisper_model env = None ->
   forall path w,
     transcribe_audio env path w =
     (Raise (HTTPException 503 "Models not initialized yet"), w)) /\
  (agent_executor env = None ->
   forall query w,
     fst (process_query env query w) =
     Raise (HTTPException 503 "Models not initialized yet")) /\
  (whisper_model env = None ->
   forall file w tmp w1,
     endswith_any (filename file) ALLOWED = true ->
     save_upload env file w = (Return tmp, w1) ->
     fst (chat_voice env file w) =
     Raise (HTTPException 503 "Models not initialized yet")) /\
  (agent_executor env = None ->
   forall file w tmp w1 t,
     endswith_any (filename file) ALLOWED = true ->
     save_upload env file w = (Return tmp, w1) ->
     fst (transcribe_audio env tmp w1) = Return t ->
     t <> "" ->
     unlink_fault env = None ->
     fst (chat_voice env file w) =
     Raise (HTTPException 503 "Models not initialized yet")) /\
  (agent_executor env = None ->
   forall request w,
     fst (chat_text env request w) =
     Raise (HTTPException 503 "Models not initialized yet")).
Proof.
  repeat split.
  - intros Hm path w. unfold transcribe_audio. rewrite Hm. reflexivity.
  - intros Ha query w. rewrite process_query_run. simpl. unfold routed.
    rewrite Ha. reflexivity.
  - intros Hm file w tmp w1 Hok Hsave.
    destruct (chat_voice_stored _ _ _ _ _ Hok Hsave) as (audio & _ & _ & ->).
    simpl. unfold answer, heard. rewrite Hm. reflexivity.
  - intros Ha file w tmp w1 t Hok Hsave Htr Ht Hunlink.
    destruct (chat_voice_stored _ _ _ _ _ Hok Hsave) as (audio & _ & Hst & ->).
    rewrite (transcribe_audio_stored _ _ _ _ Hst) in Htr. simpl in *.
    unfold answer. rewrite Htr, Hunlink.
    apply String.eqb_neq in Ht. rewrite Ht. unfold routed. rewrite Ha. reflexivity.
  - intros Ha request w. unfold chat_text. run.
    rewrite process_query_run. unfold routed. rewrite Ha. reflexivity.
Qed.

Lemma not_ready_service_unavailable_witness :
  transcribe_audio cold_env "/tmp/tmpa1b2c3.wav" w0 =
    (Raise (HTTPException 503 "Models not initialized yet"), w0) /\
  fst (process_query cold_env "hello" w0) =
    Raise (HTTPException 503 "Models not initialized yet") /\
  fst (chat_voice cold_env clip w0) =
    Raise (HTTPException 503 "Models not initialized yet") /\
  fst (chat_text cold_env (mkText "hello") w0) =
    Raise (HTTPException 503 "Models not initialized yet").
Proof.
  destruct (not_ready_service_unavailable cold_env) as (H1 & H2 & H3 & _ & H5).
  split; [apply H1; reflexivity|].
  split; [apply H2; reflexivity|].
  split; [|apply H5; reflexivity].
  apply (H3 eq_refl clip w0 "/tmp/tmpa1b2c3.wav" (snd (save_upload cold_env clip w0))).
  - reflexivity.
  - vm_compute. reflexivity.
Defined.

(** ** Format validation *)

(** C6. A file name that ends in .wav, .mp3, .ogg or .flac (compared
    case-sensitively) is never answered 400; any other name is answered
    400 at once, with the world untouched: no temp file exists and no
    collaborator was called. *)
Theorem format_validation (env : Env) (file : UploadFile) (w : World) :
  (supported (filename file) ->
   forall detail, fst (chat_voice env file w) <> Raise (HTTPException 400 detail)) /\
  (~ supported (filename file) ->
   chat_voice env file w =
   (Raise (HTTPException 400
      "Unsupported file format. Supported formats: WAV, MP3, OGG, FLAC"), w)).
Proof.
  split.
  - intros Hsup%endswith_any_supported detail.
    destruct (save_upload env file w) as [[tmp|e] w1] eqn:Hsave.
    + destruct (chat_voice_stored _ _ _ _ _ Hsup Hsave) as (audio & _ & _ & ->).
      simpl. unfold answer.
      destruct (heard env audio) as [t|e] eqn:Hh.
      * destruct (unlink_fault env); [discriminate|].
        destruct (String.eqb t ""); [discriminate|].
        destruct (routed env t) as [r|e] eqn:Hr.
        -- unfold respond. destruct (q_response r); discriminate.
        -- destruct (routed_raises_not_ready _ _ _ Hr) as [-> _]. discriminate.
      * unfold heard in Hh. destruct (whisper_model env) as [model|].
        -- destruct (model audio); [destruct (str_strip _)|];
             try discriminate; injection Hh as <-; discriminate.
        -- injection Hh as <-. discriminate.
    + rewrite (chat_voice_upload_failed _ _ _ _ _ Hsup Hsave). discriminate.
  - intros Hnot. apply chat_voice_rejected.
    destruct (endswith_any (filename file) ALLOWED) eqn:Hend; [|reflexivity].
    exfalso. apply Hnot, endswith_any_supported, Hend.
Qed.

Lemma format_validation_witness :
  (forall detail,
     fst (chat_voice silence_env clip w0) <> Raise (HTTPException 400 detail)) /\
  chat_voice silence_env (mkUpload "clip.WAV" (Return "RIFF")) w0 =
  (Raise (HTTPException 400
     "Unsupported file format. Supported formats: WAV, MP3, OGG, FLAC"), w0).
Proof.
  split.
  - apply (proj1 (format_validation silence_env clip w0)).
    exists "clip", ".wav". split; [left; reflexivity | reflexivity].
  - apply (proj2 (format_validation silence_env (mkUpload "clip.WAV" (Return "RIFF")) w0)).
    intros H%endswith_any_supported. vm_compute in H. discriminate.
Defined.

(** ** Faults that reach the caller of the voice endpoint *)

Lemma heard_raises env audio e :
  heard env audio = Raise e -> e = NOT_READY \/ e = AUDIO_FAILED.
Proof.
  unfold heard. destruct (whisper_model env) as [model|]; [|intros [= <-]; auto].
  destruct (model audio) as [result|]; [|intros [= <-]; auto].
  destruct (str_strip _); [discriminate|intros [= <-]; auto].
Qed.

Lemma answer_raises env audio e :
  answer env audio = Raise e -> e = NOT_READY \/ e = AUDIO_FAILED \/ e = INTERNAL.
Proof.
  unfold answer. destruct (heard env audio) as [t|e'] eqn:Hh.
  - destruct (unlink_fault env); [intros [= <-]; auto|].
    destruct (String.eqb t ""); [discriminate|].
    destruct (routed env t) as [r|e'] eqn:Hr.
    + unfold respond. destruct (q_response r); try discriminate; intros [= <-]; auto.
    + destruct (routed_raises_not_ready _ _ _ Hr) as [-> _]. intros [= <-]. auto.
  - intros [= <-]. destruct (heard_raises _ _ _ Hh); auto.
Qed.

(** Every way [chat_voice] can end in an exception. *)
Lemma chat_voice_raises env file w e :
  fst (chat_voice env file w) = Raise e ->
  In e [HTTPException 400
          "Unsupported file format. Supported formats: WAV, MP3, OGG, FLAC";
        HTTPException 500 "File upload failed";
        NOT_READY; AUDIO_FAILED; INTERNAL].
Proof.
  destruct (endswith_any (filename file) ALLOWED) eqn:Hok.
  - destruct (save_upload env file w) as [[tmp|e'] w1] eqn:Hsave.
    + destruct (chat_voice_stored _ _ _ _ _ Hok Hsave) as (audio & _ & _ & ->).
      simpl fst. intros [->| [->| ->]]%answer_raises; simpl; auto 10.
    + rewrite (chat_voice_upload_failed _ _ _ _ _ Hok Hsave). simpl.
      intros [= <-]. auto.
  - rewrite (chat_voice_rejected _ _ _ Hok). simpl. intros [= <-]. auto.
Qed.

(** C7. Whatever the collaborators do, chat_voice ends either with a
    VoiceResponse or with an HTTPException of status 400, 500 or 503;
    an exception of any other class never leaves it.  The faults no
    earlier stage maps -- os.unlink failing, the response model
    rejecting the agent's output -- become 500 "Internal server error". *)
Theorem voice_faults_become_http (env : Env) (file : UploadFile) (w : World) :
  (forall cls, fst (chat_voice env file w) <> Raise (Exception cls)) /\
  (forall code detail,
     fst (chat_voice env file w) = Raise (HTTPException code detail) ->
     code = 400%Z \/ code = 500%Z \/ code = 503%Z) /\
  (forall tmp w1 t cls,
     endswith_any (filename file) ALLOWED = true ->
     save_upload env file w = (Return tmp, w1) ->
     fst (transcribe_audio env tmp w1) = Return t ->
     unlink_fault env = Some cls ->
     fst (chat_voice env file w) = Raise (HTTPException 500 "Internal server error")) /\
  (forall tmp w1 t r,
     endswith_any (filename file) ALLOWED = true ->
     save_upload env file w = (Return tmp, w1) ->
     fst (transcribe_audio env tmp w1) = Return t ->
     unlink_fault env = None ->
     t <> "" ->
     routed env t = Return r ->
     (forall s, q_response r <> PyStr s) ->
     fst (chat_voice env file w) = Raise (HTTPException 500 "Internal server error")).
Proof.
  split; [|split; [|split]].
  - intros cls H. apply chat_voice_raises in H. simpl in H.
    repeat (destruct H as [H|H]; [discriminate|]). exact H.
  - intros code detail H. apply chat_voice_raises in H. simpl in H.
    repeat (destruct H as [H|H]; [injection H as <- <-; auto|]). destruct H.
  - intros tmp w1 t cls Hok Hsave Htr Hunlink.
    destruct (chat_voice_stored _ _ _ _ _ Hok Hsave) as (audio & _ & Hst & ->).
    rewrite (transcribe_audio_stored _ _ _ _ Hst) in Htr. simpl in *.
    unfold answer. rewrite Htr, Hunlink. reflexivity.
  - intros tmp w1 t r Hok Hsave Htr Hunlink Ht Hr Hbad.
    destruct (chat_voice_stored _ _ _ _ _ Hok Hsave) as (audio & _ & Hst & ->).
    rewrite (transcribe_audio_stored _ _ _ _ Hst) in Htr. simpl in *.
    unfold answer. rewrite Htr, Hunlink.
    apply String.eqb_neq in Ht. rewrite Ht, Hr. unfold respond.
    destruct (q_response r) as [|s| |]; try reflexivity.
    exfalso. exact (Hbad s eq_refl).
Qed.

Lemma voice_faults_become_http_witness :
  fst (chat_voice locked_tmp_env clip w0) =
    Raise (HTTPException 500 "Internal server error") /\
  fst (chat_voice none_output_env clip w0) =
    Raise (HTTPException 500 "Internal server error").
Proof.
  split.
  - apply (proj1 (proj2 (proj2 (voice_faults_become_http locked_tmp_env clip w0)))
             "/tmp/tmpa1b2c3.wav" (snd (save_upload locked_tmp_env clip w0))
             "hello" "PermissionError").
    + reflexivity.
    + vm_compute. reflexivity.
    + vm_compute. reflexivity.
    + reflexivity.
  - apply (proj2 (proj2 (proj2 (voice_faults_become_http none_output_env clip w0)))
             "/tmp/tmpa1b2c3.wav" (snd (save_upload none_output_env clip w0))
             "hello" (mkQuery PyNone false)).
    + reflexivity.
    + vm_compute. reflexivity.
    + vm_compute. reflexivity.
    + reflexivity.
    + discriminate.
    + vm_compute. reflexivity.
    + discriminate.
Defined.

(** ** Determinism *)

(** C9. With the engine a function of the audio bytes and the agent a
    function of the query, two calls of the voice endpoint on the same
    upload that both succeed return the same VoiceResponse, whatever
    the file system and call record they start from. *)
Theorem chat_voice_deterministic
    (env : Env) (file : UploadFile) (w1 w2 w1' w2' : World) (r1 r2 : VoiceResponse) :
  chat_voice env file w1 = (Return r1, w1') ->
  chat_voice env file w2 = (Return r2, w2') ->
  r1 = r2.
Proof.
  intros H1 H2.
  destruct (endswith_any (filename file) ALLOWED) eqn:Hok;
    [|rewrite (chat_voice_rejected _ _ _ Hok) in H1; discriminate].
  destruct (save_upload env file w1) as [[tmp1|e1] u1] eqn:Hs1;
    [|rewrite (chat_voice_upload_failed _ _ _ _ _ Hok Hs1) in H1; discriminate].
  destruct (save_upload env file w2) as [[tmp2|e2] u2] eqn:Hs2;
    [|rewrite (chat_voice_upload_failed _ _ _ _ _ Hok Hs2) in H2; discriminate].
  destruct (chat_voice_stored _ _ _ _ _ Hok Hs1) as (a1 & Hr1 & _ & Hrun1).
  destruct (chat_voice_stored _ _ _ _ _ Hok Hs2) as (a2 & Hr2 & _ & Hrun2).
  rewrite Hr1 in Hr2. injection Hr2 as <-.
  rewrite Hrun1 in H1. rewrite Hrun2 in H2.
  injection H1 as H1 _. injection H2 as H2 _.
  rewrite H1 in H2. injection H2 as <-. reflexivity.
Qed.

Lemma chat_voice_deterministic_witness :
  exists r1 r2,
    fst (chat_voice greeting_env clip w0) = Return r1 /\
    fst (chat_voice greeting_env clip (snd (chat_voice greeting_env clip w0))) = Return r2 /\
    r1 = r2.
Proof.
  exists (mkVoice "hello" "Hi!" false), (mkVoice "hello" "Hi!" false).
  split; [vm_compute; reflexivity|]. split; [vm_compute; reflexivity|].
  apply (chat_voice_deterministic greeting_env clip
           w0 (snd (chat_voice greeting_env clip w0))
           (snd (chat_voice greeting_env clip w0))
           (snd (chat_voice greeting_env clip (snd (chat_voice greeting_env clip w0))))).
  - vm_compute. reflexivity.
  - vm_compute. reflexivity.
Defined.

(** ** The response text *)

Lemma routed_returns env query r :
  routed env query = Return r ->
  q_response r = PyStr CLARIFY \/
  q_response r = PyStr APOLOGY \/
  exists agent result,
    agent_executor env = Some agent /\ query <> "" /\
    agent query = Return result /\
    q_response r = dict_get result "output" (PyStr FALLBACK).
Proof.
  unfold routed. destruct (agent_executor env) as [agent|]; [|discriminate].
  destruct (String.eqb query "") eqn:Hq; [intros [= <-]; auto|].
  apply String.eqb_neq in Hq.
  destruct (agent query) as [result|] eqn:Hans; [|intros [= <-]; auto].
  unfold assemble. destruct (py_iter _); [|intros [= <-]; auto].
  destruct (any_search _); intros [= <-]; auto.
  right. right. exists agent, result. auto.
Qed.

(** Where the response of an answered query comes from: the two fixed
    messages, or what the agent put under "output" for this very query
    (the fallback when the key is absent). *)
Lemma respond_origin env t qr v :
  routed env t = Return qr ->
  respond t qr = Return v ->
  transcript v = t /\
  (response v = CLARIFY \/
   response v = APOLOGY \/
   exists agent result,
     agent_executor env = Some agent /\ t <> "" /\
     agent t = Return result /\
     dict_get result "output" (PyStr FALLBACK) = PyStr (response v)).
Proof.
  intros Hr Hv. unfold respond in Hv.
  destruct (q_response qr) as [|s| |] eqn:Hresp; try discriminate.
  injection Hv as <-. simpl. split; [reflexivity|].
  destruct (routed_returns _ _ _ Hr) as [H|[H|(agent & result & Ha & Hq & Hans & H)]];
    rewrite Hresp in H.
  - left. congruence.
  - right. left. congruence.
  - right. right. exists agent, result. rewrite <- H. auto.
Qed.

Lemma origin_empty env (v : VoiceResponse) :
  (response v = CLARIFY \/
   response v = APOLOGY \/
   exists agent result,
     agent_executor env = Some agent /\ transcript v <> "" /\
     agent (transcript v) = Return result /\
     dict_get result "output" (PyStr FALLBACK) = PyStr (response v)) ->
  response v = "" ->
  exists agent result,
    agent_executor env = Some agent /\ transcript v <> "" /\
    agent (transcript v) = Return result /\
    result !! "output" = Some (PyStr "").
Proof.
  intros [H|[H|(agent & result & Ha & Hq & Hans & H)]] Hempty;
    rewrite Hempty in H; try discriminate.
  exists agent, result. repeat split; try assumption.
  unfold dict_get in H. destruct (result !! "output") as [o|]; [|discriminate].
  rewrite H. reflexivity.
Qed.

Lemma routed_pass_through env agent query result s entries :
  agent_executor env = Some agent ->
  query <> "" ->
  agent query = Return result ->
  result !! "output" = Some (PyStr s) ->
  trace_of result = Some entries ->
  Forall (fun e => is_Some (entry_tool e)) entries ->
  routed env query = Return (mkQuery (PyStr s) (existsb names_search entries)).
Proof.
  intros Hagent Hq Hans Hout Htrace Hwf. unfold routed. rewrite Hagent.
  apply String.eqb_neq in Hq. rewrite Hq, Hans.
  rewrite (assemble_well_formed _ _ Htrace Hwf).
  unfold dict_get. rewrite Hout. reflexivity.
Qed.

(** C5, as stated, fails: an agent whose output is the empty string gets
    it passed through, and the text endpoint returns successfully with an
    empty response; the fallback message is not substituted. *)
Lemma empty_output_empty_response :
  fst (chat_text (stub_env "" {["output" := PyStr ""]}) (mkText "hello") w0)
  = Return (mkVoice "hello" "" false) /\
  response (mkVoice "hello" "" false) = "".
Proof. split; [vm_compute; reflexivity | reflexivity]. Qed.

(** C5, amended.  Every VoiceResponse returned by either endpoint has
    a bool for search_triggered (by its type) and a response that is one
    of the two fixed messages or what the agent put under "output" when
    asked this request's own query -- the request text, or the transcript
    of the upload -- with the fallback "I couldn't process that request."
    standing in only for an absent key.  The output is passed through
    unchanged, the empty string included, so the response is empty
    exactly in the case where the agent returned the empty string for
    this request. *)
Theorem response_empty_only_from_agent :
  (forall env rq w r w',
     app env rq w = (Return r, w') ->
     match rq with
     | PostChatText request => transcript r = text request
     | PostChatVoice file =>
         exists tmp w1,
           save_upload env file w = (Return tmp, w1) /\
           fst (transcribe_audio env tmp w1) = Return (transcript r)
     end /\
     (response r = "I didn't catch that. Could you please repeat?" \/
      response r = "I encountered an error processing your request." \/
      exists agent result,
        agent_executor env = Some agent /\ transcript r <> "" /\
        agent (transcript r) = Return result /\
        dict_get result "output" (PyStr "I couldn't process that request.")
          = PyStr (response r)) /\
     (response r = "" ->
      exists agent result,
        agent_executor env = Some agent /\ transcript r <> "" /\
        agent (transcript r) = Return result /\
        result !! "output" = Some (PyStr ""))) /\
  (forall env agent query result s entries w,
     agent_executor env = Some agent ->
     query <> "" ->
     agent query = Return result ->
     result !! "output" = Some (PyStr s) ->
     trace_of result = Some entries ->
     Forall (fun e => is_Some (entry_tool e)) entries ->
     fst (process_query env query w) =
       Return (mkQuery (PyStr s) (existsb names_search entries)) /\
     fst (app env (PostChatText (mkText query)) w) =
       Return (mkVoice query s (existsb names_search entries)) /\
     (forall file wv tmp w1,
        endswith_any (filename file) ALLOWED = true ->
        save_upload env file wv = (Return tmp, w1) ->
        fst (transcribe_audio env tmp w1) = Return query ->
        unlink_fault env = None ->
        fst (app env (PostChatVoice file) wv) =
          Return (mkVoice query s (existsb names_search entries)))) /\
  (forall env agent query result w,
     agent_executor env = Some agent ->
     query <> "" ->
     agent query = Return result ->
     result !! "output" = None ->
     exists r,
       fst (process_query env query w) = Return r /\
       (q_response r = PyStr "I couldn't process that request." \/
        q_response r = PyStr "I encountered an error processing your request.") /\
       (forall entries,
          trace_of result = Some entries ->
          Forall (fun e => is_Some (entry_tool e)) entries ->
          q_response r = PyStr "I couldn't process that request.")).
Proof.
  split; [|split].
  - intros env [file|request] w r w' Hrun; cbn [app] in Hrun.
    + destruct (endswith_any (filename file) ALLOWED) eqn:Hok;
        [|rewrite (chat_voice_rejected _ _ _ Hok) in Hrun; discriminate].
      destruct (save_upload env file w) as [[tmp|e] w1] eqn:Hsave;
        [|rewrite (chat_voice_upload_failed _ _ _ _ _ Hok Hsave) in Hrun; discriminate].
      destruct (chat_voice_stored _ _ _ _ _ Hok Hsave) as (audio & _ & Hst & Heq).
      pose proof (transcribe_audio_stored env _ _ _ Hst) as Htr.
      rewrite Heq in Hrun. injection Hrun as Hans _. unfold answer in Hans.
      destruct (heard env audio) as [t|] eqn:Hheard; [|discriminate].
      destruct (unlink_fault env); [discriminate|].
      destruct (String.eqb t "") eqn:Ht.
      * injection Hans as <-. apply String.eqb_eq in Ht. subst t.
        split; [|split].
        -- exists tmp, w1. split; [reflexivity|]. rewrite Htr. reflexivity.
        -- left. reflexivity.
        -- discriminate.
      * destruct (routed env t) as [qr|] eqn:Hr; [|discriminate].
        destruct (respond_origin _ _ _ _ Hr Hans) as [Htrans Horigin].
        rewrite <- Htrans in Horigin.
        split; [|split].
        -- exists tmp, w1. split; [reflexivity|]. rewrite Htr, Htrans. reflexivity.
        -- exact Horigin.
        -- exact (origin_empty _ _ Horigin).
    + unfold chat_text, mbind, M_bind, bind in Hrun.
      rewrite process_query_run in Hrun.
      destruct (routed env (text request)) as [qr|] eqn:Hr; [|discriminate].
      assert (Hresp : respond (text request) qr = Return r).
      { unfold respond. unfold VoiceResponse_new, ret, raise in Hrun.
        destruct (q_response qr); try discriminate.
        injection Hrun as <- _. reflexivity. }
      destruct (respond_origin _ _ _ _ Hr Hresp) as [Htrans Horigin].
      rewrite <- Htrans in Horigin.
      split; [exact Htrans|]. split; [exact Horigin|].
      exact (origin_empty _ _ Horigin).
  - intros env agent query result s entries w Hagent Hq Hans Hout Htrace Hwf.
    pose proof (routed_pass_through _ _ _ _ _ _ Hagent Hq Hans Hout Htrace Hwf) as Hr.
    split; [|split].
    + rewrite process_query_run. exact Hr.
    + cbn [app]. unfold chat_text, mbind, M_bind, bind.
      rewrite process_query_run. cbn [text]. rewrite Hr. reflexivity.
    + intros file wv tmp w1 Hok Hsave Htr Hunlink. cbn [app].
      destruct (chat_voice_stored _ _ _ _ _ Hok Hsave) as (audio & _ & Hst & ->).
      rewrite (transcribe_audio_stored _ _ _ _ Hst) in Htr. cbn [fst] in *.
      unfold answer. rewrite Htr, Hunlink.
      apply String.eqb_neq in Hq. rewrite Hq, Hr. reflexivity.
  - intros env agent query result w Hagent Hq Hans Hnone.
    rewrite process_query_run. simpl. unfold routed. rewrite Hagent.
    apply String.eqb_neq in Hq. rewrite Hq, Hans.
    destruct (assemble result) as [r|e] eqn:Hasm.
    + assert (Hresp : q_response r = PyStr FALLBACK).
      { unfold assemble in Hasm. destruct (py_iter _); [|discriminate].
        destruct (any_search _); [|discriminate]. injection Hasm as <-.
        simpl. unfold dict_get. rewrite Hnone. reflexivity. }
      exists r. split; [reflexivity|]. split; [left; exact Hresp|].
      intros _ _ _. exact Hresp.
    + exists (mkQuery (PyStr APOLOGY) false). split; [reflexivity|].
      split; [right; reflexivity|].
      intros entries Htrace Hwf.
      rewrite (assemble_well_formed _ _ Htrace Hwf) in Hasm. discriminate.
Qed.

Lemma response_empty_only_from_agent_witness :
  (transcript (mkVoice "hello" "" false) = text (mkText "hello") /\
   (response (mkVoice "hello" "" false) = "I didn't catch that. Could you please repeat?" \/
    response (mkVoice "hello" "" false) = "I encountered an error processing your request." \/
    exists agent result,
      agent_executor empty_output_env = Some agent /\
      transcript (mkVoice "hello" "" false) <> "" /\
      agent (transcript (mkVoice "hello" "" false)) = Return result /\
      dict_get result "output" (PyStr "I couldn't process that request.")
        = PyStr (response (mkVoice "hello" "" false))) /\
   (response (mkVoice "hello" "" false) = "" ->
    exists agent result,
      agent_executor empty_output_env = Some agent /\
      transcript (mkVoice "hello" "" false) <> "" /\
      agent (transcript (mkVoice "hello" "" false)) = Return result /\
      result !! "output" = Some (PyStr ""))) /\
  (fst (process_query empty_output_env "hello" w0) =
     Return (mkQuery (PyStr "") (existsb names_search [])) /\
   fst (app empty_output_env (PostChatText (mkText "hello")) w0) =
     Return (mkVoice "hello" "" (existsb names_search [])) /\
   (forall file w tmp w1,
      endswith_any (filename file) ALLOWED = true ->
      save_upload empty_output_env file w = (Return tmp, w1) ->
      fst (transcribe_audio empty_output_env tmp w1) = Return "hello" ->
      unlink_fault empty_output_env = None ->
      fst (app empty_output_env (PostChatVoice file) w) =
        Return (mkVoice "hello" "" (existsb names_search [])))) /\
  (exists r,
     fst (process_query no_output_env "hello" w0) = Return r /\
     (q_response r = PyStr "I couldn't process that request." \/
      q_response r = PyStr "I encountered an error processing your request.") /\
     (forall entries,
        trace_of (∅ : gmap string PyVal) = Some entries ->
        Forall (fun e => is_Some (entry_tool e)) entries ->
        q_response r = PyStr "I couldn't process that request.")).
Proof.
  split; [|split].
  - apply (proj1 response_empty_only_from_agent empty_output_env
             (PostChatText (mkText "hello")) w0 (mkVoice "hello" "" false)
             (snd (chat_text empty_output_env (mkText "hello") w0))).
    vm_compute. reflexivity.
  - apply (proj1 (proj2 response_empty_only_from_agent) empty_output_env
             (fun _ => Return {["output" := PyStr ""]}) "hello"
             {["output" := PyStr ""]} "" [] w0).
    + reflexivity.
    + discriminate.
    + reflexivity.
    + reflexivity.
    + reflexivity.
    + constructor.
  - apply (proj2 (proj2 response_empty_only_from_agent) no_output_env
             (fun _ => Return ∅) "hello" ∅ w0).
    + reflexivity.
    + discriminate.
    + reflexivity.
    + reflexivity.
Defined.

(** ** The temp file *)

(** C4, on the code: when transcription raises, chat_voice answers 500
    and leaves the temp file in place; os.unlink is never called. *)
Theorem temp_file_left_after_failed_transcription :
  chat_voice deaf_env clip w0 =
  (Raise (HTTPException 500 "Audio processing failed"),
   mkWorld {["/tmp/tmpa1b2c3.wav" := "RIFF"]}
           [EngineCalled "/tmp/tmpa1b2c3.wav"; TempFileCreated "/tmp/tmpa1b2c3.wav"]).
Proof. vm_compute. reflexivity. Qed.

(** * Further properties of the handlers *)

(** ** [transcribe_audio] *)

Lemma lstrip_head (s : string) (c : ascii) (r : string) :
  lstrip s = String c r -> isspace c = false.
Proof.
  induction s as [|a s IH]; simpl; [discriminate|].
  destruct (isspace a) eqn:Ha; [exact IH|].
  intros [= <- _]. exact Ha.
Qed.

Lemma rstrip_head (c : ascii) (s : string) :
  isspace c = false -> exists r, rstrip (String c s) = String c r.
Proof.
  intros Hc. simpl. rewrite Hc. destruct (rstrip s); eauto.
Qed.

Lemma rstrip_last (s init : string) (c : ascii) :
  rstrip s = init +:+ String c "" -> isspace c = false.
Proof.
  revert init. induction s as [|a s IH]; intros init; simpl.
  - destruct init; discriminate.
  - destruct (rstrip s) as [|b r] eqn:Hr.
    + destruct (isspace a) eqn:Ha.
      * destruct init; discriminate.
      * destruct init as [|i [|j init]]; try discriminate.
        intros [= <-]. exact Ha.
    + destruct init as [|i init]; [discriminate|].
      intros [= _ Hrest]. exact (IH init Hrest).
Qed.

Lemma strip_head (s : string) (c : ascii) (r : string) :
  strip s = String c r -> isspace c = false.
Proof.
  unfold strip. destruct (lstrip s) as [|a l] eqn:Hl; [discriminate|].
  pose proof (lstrip_head _ _ _ Hl) as Ha.
  destruct (rstrip_head a l Ha) as [r' ->]. intros [= <- _]. exact Ha.
Qed.

Lemma strip_last (s init : string) (c : ascii) :
  strip s = init +:+ String c "" -> isspace c = false.
Proof. unfold strip. apply rstrip_last. Qed.

(** What a successful transcription went through. *)
Lemma transcribe_audio_returns env path w t w' :
  transcribe_audio env path w = (Return t, w') ->
  exists model audio result s,
    whisper_model env = Some model /\
    files w !! path = Some audio /\
    model audio = Return result /\
    dict_get result "text" (PyStr "") = PyStr s /\
    t = strip s.
Proof.
  unfold transcribe_audio, model_transcribe.
  destruct (whisper_model env) as [model|]; run; [|discriminate].
  destruct (files w !! path) as [audio|]; [|discriminate].
  destruct (model audio) as [result|] eqn:Hres; [|discriminate].
  destruct (dict_get result "text" (PyStr "")) as [|s| |] eqn:Htext; simpl;
    try discriminate.
  intros [= <- _]. exists model, audio, result, s. auto.
Qed.

(** X1. The text transcribe_audio returns is trimmed: it neither starts
    nor ends with a whitespace character, whatever the engine produced. *)
Theorem transcribe_audio_trimmed
    (env : Env) (path : string) (w w' : World) (t : string) :
  transcribe_audio env path w = (Return t, w') ->
  (forall c rest, t = String c rest -> isspace c = false) /\
  (forall init c, t = init +:+ String c "" -> isspace c = false).
Proof.
  intros (model & audio & result & s & _ & _ & _ & _ & ->)%transcribe_audio_returns.
  split.
  - intros c rest H. exact (strip_head _ _ _ H).
  - intros init c H. exact (strip_last _ _ _ H).
Qed.

Lemma transcribe_audio_trimmed_witness :
  (forall c rest, "turn on the lights" = String c rest -> isspace c = false) /\
  (forall init c, "turn on the lights" = init +:+ String c "" -> isspace c = false).
Proof.
  apply (transcribe_audio_trimmed padded_env "/tmp/a.wav" stored_clip
           (mkWorld (files stored_clip) [EngineCalled "/tmp/a.wav"])
           "turn on the lights").
  vm_compute. reflexivity.
Defined.

(** X2. transcribe_audio raises nothing but 503 "Models not initialized
    yet" (exactly when whisper_model is None) and 500 "Audio processing
    failed": an exception of the engine, even an HTTPException of its
    own, and a text that is not a str are all replaced by the 500. *)
Theorem transcribe_audio_raises_only
    (env : Env) (path : string) (w w' : World) (e : PyExc) :
  transcribe_audio env path w = (Raise e, w') ->
  (whisper_model env = None /\
   e = HTTPException 503 "Models not initialized yet" /\ w' = w) \/
  (whisper_model env <> None /\
   e = HTTPException 500 "Audio processing failed" /\
   calls w' = EngineCalled path :: calls w).
Proof.
  unfold transcribe_audio, model_transcribe.
  destruct (whisper_model env) as [model|]; run.
  - intros H. right. split; [discriminate|].
    destruct (files w !! path) as [audio|].
    + destruct (model audio) as [result|].
      * destruct (str_strip _); [discriminate|].
        injection H as <- <-. auto.
      * injection H as <- <-. auto.
    + injection H as <- <-. auto.
  - intros [= <- <-]. left. auto.
Qed.

Lemma transcribe_audio_raises_only_witness :
  (whisper_model teapot_env = None /\
   HTTPException 500 "Audio processing failed"
     = HTTPException 503 "Models not initialized yet" /\
   mkWorld (files stored_clip) [EngineCalled "/tmp/a.wav"] = stored_clip) \/
  (whisper_model teapot_env <> None /\
   HTTPException 500 "Audio processing failed"
     = HTTPException 500 "Audio processing failed" /\
   calls (mkWorld (files stored_clip) [EngineCalled "/tmp/a.wav"])
     = EngineCalled "/tmp/a.wav" :: calls stored_clip).
Proof.
  apply (transcribe_audio_raises_only teapot_env "/tmp/a.wav" stored_clip
           (mkWorld (files stored_clip) [EngineCalled "/tmp/a.wav"])
           (HTTPException 500 "Audio processing failed")).
  vm_compute. reflexivity.
Defined.

(** ** [process_query] *)

(** X3. process_query returns a result for every query exactly when
    agent_executor is set; the only exception it ever raises is the 503
    of the readiness check. *)
Theorem process_query_returns_iff_ready (env : Env) (query : string) (w : World) :
  ((exists r, fst (process_query env query w) = Return r) <->
   agent_executor env <> None) /\
  (forall e, fst (process_query env query w) = Raise e ->
             e = HTTPException 503 "Models not initialized yet").
Proof.
  rewrite process_query_run. simpl. split; [split|].
  - intros [r Hr] Hnone. unfold routed in Hr. rewrite Hnone in Hr. discriminate.
  - intros Hready. unfold routed.
    destruct (agent_executor env) as [agent|]; [|congruence].
    destruct (String.eqb query ""); [eauto|].
    destruct (agent query) as [result|]; [|eauto].
    destruct (assemble result); eauto.
  - intros e He. apply routed_raises_not_ready in He as [-> _]. reflexivity.
Qed.

Lemma process_query_returns_iff_ready_witness :
  exists r, fst (process_query failing_agent_env "hello" w0) = Return r.
Proof.
  apply (proj1 (process_query_returns_iff_ready failing_agent_env "hello" w0)).
  discriminate.
Defined.

(** X4. The empty text is answered without the agent: with the agent
    ready, chat_text returns the clarification with an empty transcript
    and agent_executor.invoke is not called; with the agent not ready it
    is the 503, unlike the voice endpoint on an empty transcript. *)
Theorem chat_text_empty (env : Env) (w : World) :
  chat_text env (mkText "") w =
  (match agent_executor env with
   | Some _ => Return (mkVoice "" "I didn't catch that. Could you please repeat?" false)
   | None => Raise (HTTPException 503 "Models not initialized yet")
   end,
   mkWorld (files w) (RouterCalled "" :: calls w)).
Proof.
  unfold chat_text. run. rewrite process_query_run.
  unfold routed, agent_record. simpl.
  destruct (agent_executor env); reflexivity.
Qed.

Lemma any_search_hit (before rest : list PyVal) (hit : PyVal) :
  Forall other_tool before ->
  entry_tool hit = Some (PyStr SEARCH_TOOL) ->
  any_search (before ++ hit :: rest) = Return true.
Proof.
  intros Hbefore Hhit. induction Hbefore as [|e before (t & Ht & Hne) _ IH]; simpl.
  - destruct hit as [| |[|[| | |attrs] items]|]; try discriminate.
    simpl in *. rewrite Hhit. reflexivity.
  - destruct e as [| |[|[| | |attrs] items]|]; try discriminate.
    simpl in *. rewrite Ht, Hne. exact IH.
Qed.

Lemma any_search_malformed (before rest : list PyVal) (bad : PyVal) :
  Forall other_tool before ->
  entry_tool bad = None ->
  exists e, any_search (before ++ bad :: rest) = Raise e.
Proof.
  intros Hbefore Hbad. induction Hbefore as [|e before (t & Ht & Hne) _ IH]; simpl.
  - destruct bad as [|[|c s]|[|[| | |attrs] items]|]; simpl in *; eauto.
    rewrite Hbad. eauto.
  - destruct e as [| |[|[| | |attrs] items]|]; try discriminate.
    simpl in *. rewrite Ht, Hne. exact IH.
Qed.

(** X5. The trace is read up to the first search entry only: once an
    entry names "WebSearch" after entries of other tools, process_query
    reports search_triggered true and passes the agent's output on,
    whatever follows in the trace, well formed or not. *)
Theorem search_found_ignores_rest
    (env : Env) (agent : string -> Outcome (gmap string PyVal))
    (query : string) (result : gmap string PyVal)
    (before rest : list PyVal) (hit : PyVal) (w : World) :
  agent_executor env = Some agent ->
  query <> "" ->
  agent query = Return result ->
  result !! "intermediate_steps" = Some (PySeq (before ++ hit :: rest)) ->
  Forall other_tool before ->
  entry_tool hit = Some (PyStr "WebSearch") ->
  fst (process_query env query w) =
  Return (mkQuery (dict_get result "output" (PyStr "I couldn't process that request."))
                  true).
Proof.
  intros Hagent Hq Hans Htrace Hbefore Hhit.
  rewrite process_query_run. simpl. unfold routed. rewrite Hagent.
  apply String.eqb_neq in Hq. rewrite Hq, Hans.
  unfold assemble. unfold dict_get at 1. rewrite Htrace. simpl.
  rewrite (any_search_hit _ _ _ Hbefore Hhit). reflexivity.
Qed.

Lemma search_found_ignores_rest_witness :
  fst (process_query (stub_env "" search_then_junk) "weather?" w0) =
  Return (mkQuery (dict_get search_then_junk "output"
                     (PyStr "I couldn't process that request.")) true).
Proof.
  apply (search_found_ignores_rest (stub_env "" search_then_junk)
           (fun _ => Return search_then_junk) "weather?" search_then_junk
           [step "Calculator"] [PyNone] (step "WebSearch") w0).
  - reflexivity.
  - discriminate.
  - reflexivity.
  - vm_compute. reflexivity.
  - repeat constructor. exists (PyStr "Calculator"). split; reflexivity.
  - reflexivity.
Defined.

(** X6. A trace entry without a tool identifier that comes before any
    search entry costs the whole answer: process_query drops the agent's
    output, however valid, and returns the apology with search_triggered
    false, even if a "WebSearch" entry follows. *)
Theorem malformed_entry_discards_answer
    (env : Env) (agent : string -> Outcome (gmap string PyVal))
    (query : string) (result : gmap string PyVal)
    (before rest : list PyVal) (bad : PyVal) (w : World) :
  agent_executor env = Some agent ->
  query <> "" ->
  agent query = Return result ->
  result !! "intermediate_steps" = Some (PySeq (before ++ bad :: rest)) ->
  Forall other_tool before ->
  entry_tool bad = None ->
  fst (process_query env query w) =
  Return (mkQuery (PyStr "I encountered an error processing your request.") false).
Proof.
  intros Hagent Hq Hans Htrace Hbefore Hbad.
  rewrite process_query_run. simpl. unfold routed. rewrite Hagent.
  apply String.eqb_neq in Hq. rewrite Hq, Hans.
  unfold assemble. unfold dict_get at 1. rewrite Htrace. simpl.
  destruct (any_search_malformed _ rest _ Hbefore Hbad) as [e ->]. reflexivity.
Qed.

Lemma malformed_entry_discards_answer_witness :
  fst (process_query (stub_env "" junk_then_search) "weather?" w0) =
  Return (mkQuery (PyStr "I encountered an error processing your request.") false).
Proof.
  apply (malformed_entry_discards_answer (stub_env "" junk_then_search)
           (fun _ => Return junk_then_search) "weather?" junk_then_search
           [step "Calculator"] [step "WebSearch"] PyNone w0).
  - reflexivity.
  - discriminate.
  - reflexivity.
  - vm_compute. reflexivity.
  - repeat constructor. exists (PyStr "Calculator"). split; reflexivity.
  - reflexivity.
Defined.

(** ** [chat_text] *)

(** X7. chat_text hands the request text to the agent as it is: any
    non-empty text, blank ones included, is one call of the agent with
    that very text, and a successful result carries the text unchanged
    as its transcript. *)
Theorem chat_text_verbatim
    (env : Env) (agent : string -> Outcome (gmap string PyVal))
    (request : TextRequest) (w : World) :
  agent_executor env = Some agent ->
  text request <> "" ->
  calls (snd (chat_text env request w)) =
    AgentInvoked (text request) :: RouterCalled (text request) :: calls w /\
  forall r, fst (chat_text env request w) = Return r -> transcript r = text request.
Proof.
  intros Hagent Hq. unfold chat_text. run. rewrite process_query_run.
  unfold agent_record. rewrite Hagent.
  apply String.eqb_neq in Hq. rewrite Hq.
  destruct (routed env (text request)) as [qr|e]; simpl.
  - unfold VoiceResponse_new. destruct (q_response qr); simpl; split; try reflexivity;
      intros r [= <-]; reflexivity.
  - split; [reflexivity|]. discriminate.
Qed.

Lemma chat_text_verbatim_witness :
  calls (snd (chat_text blank_text_env (mkText "   ") w0)) =
    AgentInvoked "   " :: RouterCalled "   " :: calls w0 /\
  forall r, fst (chat_text blank_text_env (mkText "   ") w0) = Return r ->
            transcript r = "   ".
Proof.
  apply (chat_text_verbatim blank_text_env
           (fun _ => Return {["output" := PyStr "Could you say more?"]})
           (mkText "   ") w0).
  - reflexivity.
  - discriminate.
Defined.

(** X8. chat_text has no handler of its own: besides the 503 it raises
    the response model's ValidationError unconverted, and does so exactly
    when process_query returned a response that is not a str (such as an
    agent output of None). *)
Theorem chat_text_raises (env : Env) (request : TextRequest) (w : World) :
  (forall e, fst (chat_text env request w) = Raise e ->
             e = HTTPException 503 "Models not initialized yet" \/
             e = Exception "ValidationError") /\
  (fst (chat_text env request w) = Raise (Exception "ValidationError") <->
   exists r, fst (process_query env (text request) w) = Return r /\
             forall s, q_response r <> PyStr s).
Proof.
  unfold chat_text. run. rewrite process_query_run. simpl.
  destruct (routed env (text request)) as [qr|e'] eqn:Hr; simpl.
  - unfold VoiceResponse_new.
    destruct (q_response qr) as [|s| |] eqn:Hresp; simpl; (split; [|split]);
      try (intros e [= <-]; auto); try discriminate;
      try (intros _; exists qr; split; [reflexivity|]; rewrite Hresp; discriminate);
      try reflexivity.
    intros (r & [= <-] & Hbad). exfalso. exact (Hbad s Hresp).
  - destruct (routed_raises_not_ready _ _ _ Hr) as [-> _]. split; [|split].
    + intros e [= <-]. auto.
    + discriminate.
    + intros (r & Hret & _). discriminate.
Qed.

Lemma chat_text_raises_witness :
  fst (chat_text none_output_env (mkText "hello") w0) = Raise (Exception "ValidationError").
Proof.
  apply (proj2 (chat_text_raises none_output_env (mkText "hello") w0)).
  exists (mkQuery PyNone false). split; [vm_compute; reflexivity | discriminate].
Defined.

(** ** [chat_voice]: the voice and the text path *)

(** X9. Once a stored upload has been transcribed to a non-empty text
    and the temp file unlinked, chat_voice answers what chat_text answers
    on that text: the same VoiceResponse, the same 503, and a 500
    "Internal server error" where chat_text lets the ValidationError
    through. *)
Theorem chat_voice_agrees_with_chat_text
    (env : Env) (file : UploadFile) (w w1 w2 : World) (tmp t : string) :
  endswith_any (filename file) ALLOWED = true ->
  save_upload env file w = (Return tmp, w1) ->
  fst (transcribe_audio env tmp w1) = Return t ->
  t <> "" ->
  unlink_fault env = None ->
  fst (chat_voice env file w) =
  match fst (chat_text env (mkText t) w2) with
  | Return r => Return r
  | Raise (HTTPException code detail) => Raise (HTTPException code detail)
  | Raise (Exception _) => Raise (HTTPException 500 "Internal server error")
  end.
Proof.
  intros Hok Hsave Htr Ht Hunlink.
  destruct (chat_voice_stored _ _ _ _ _ Hok Hsave) as (audio & _ & Hst & ->).
  rewrite (transcribe_audio_stored _ _ _ _ Hst) in Htr. simpl in *.
  unfold answer. rewrite Htr, Hunlink.
  apply String.eqb_neq in Ht. rewrite Ht.
  unfold chat_text. run. rewrite process_query_run.
  destruct (routed env t) as [qr|e] eqn:Hr; simpl.
  - unfold respond, VoiceResponse_new. destruct (q_response qr); reflexivity.
  - destruct (routed_raises_not_ready _ _ _ Hr) as [-> _]. reflexivity.
Qed.

Lemma chat_voice_agrees_with_chat_text_witness :
  fst (chat_voice greeting_env clip w0) =
  match fst (chat_text greeting_env (mkText "hello") w0) with
  | Return r => Return r
  | Raise (HTTPException code detail) => Raise (HTTPException code detail)
  | Raise (Exception _) => Raise (HTTPException 500 "Internal server error")
  end.
Proof.
  apply (chat_voice_agrees_with_chat_text greeting_env clip w0
           (snd (save_upload greeting_env clip w0)) w0 "/tmp/tmpa1b2c3.wav" "hello").
  - reflexivity.
  - vm_compute. reflexivity.
  - vm_compute. reflexivity.
  - discriminate.
  - reflexivity.
Defined.

Lemma heard_returns env audio t :
  heard env audio = Return t -> exists s, t = strip s.
Proof.
  unfold heard. destruct (whisper_model env) as [model|]; [|discriminate].
  destruct (model audio) as [result|]; [|discriminate].
  destruct (dict_get result "text" (PyStr "")) as [|s| |]; simpl; try discriminate.
  intros [= <-]. eauto.
Qed.

(** X22. The transcript of a VoiceResponse returned by chat_voice never
    starts or ends with whitespace, and it is empty only in the
    clarification result. *)
Theorem voice_transcript_trimmed
    (env : Env) (file : UploadFile) (w w' : World) (r : VoiceResponse) :
  chat_voice env file w = (Return r, w') ->
  (forall c rest, transcript r = String c rest -> isspace c = false) /\
  (forall init c, transcript r = init +:+ String c "" -> isspace c = false) /\
  (transcript r = "" ->
   r = mkVoice "" "I didn't catch that. Could you please repeat?" false).
Proof.
  intros Hrun.
  destruct (endswith_any (filename file) ALLOWED) eqn:Hok;
    [|rewrite (chat_voice_rejected _ _ _ Hok) in Hrun; discriminate].
  destruct (save_upload env file w) as [[tmp|e] w1] eqn:Hsave;
    [|rewrite (chat_voice_upload_failed _ _ _ _ _ Hok Hsave) in Hrun; discriminate].
  destruct (chat_voice_stored _ _ _ _ _ Hok Hsave) as (audio & _ & _ & Heq).
  rewrite Heq in Hrun. injection Hrun as Hans _. unfold answer in Hans.
  destruct (heard env audio) as [t|] eqn:Hheard; [|discriminate].
  destruct (heard_returns _ _ _ Hheard) as [s ->].
  destruct (unlink_fault env); [discriminate|].
  destruct (String.eqb (strip s) "") eqn:Hempty.
  - injection Hans as <-. simpl. repeat split; try discriminate.
    intros [|i init] c H; discriminate.
  - destruct (routed env (strip s)) as [qr|]; [|discriminate].
    unfold respond in Hans. destruct (q_response qr); try discriminate.
    injection Hans as <-. simpl. split; [|split].
    + intros c rest H. exact (strip_head _ _ _ H).
    + intros init c H. exact (strip_last _ _ _ H).
    + intros H. apply String.eqb_neq in Hempty. contradiction.
Qed.

Lemma voice_transcript_trimmed_witness :
  (forall c rest, transcript (mkVoice "hello" "Hi!" false) = String c rest ->
                  isspace c = false) /\
  (forall init c, transcript (mkVoice "hello" "Hi!" false) = init +:+ String c "" ->
                  isspace c = false) /\
  (transcript (mkVoice "hello" "Hi!" false) = "" ->
   mkVoice "hello" "Hi!" false =
   mkVoice "" "I didn't catch that. Could you please repeat?" false).
Proof.
  apply (voice_transcript_trimmed greeting_env clip w0
           (snd (chat_voice greeting_env clip w0)) (mkVoice "hello" "Hi!" false)).
  vm_compute. reflexivity.
Defined.

(** ** [chat_voice]: the file system *)

Lemma save_upload_raises env file w e w1 :
  save_upload env file w = (Raise e, w1) ->
  w1 = w \/
  exists tmp,
    files w !! tmp = None /\
    w1 = mkWorld (<[tmp := ""]> (files w)) (TempFileCreated tmp :: calls w).
Proof.
  unfold save_upload, NamedTemporaryFile, tmp_write. run.
  destruct (create_fault env); [intros [= _ <-]; auto|].
  destruct (files w !! _) eqn:Hfresh; [intros [= _ <-]; auto|].
  destruct (read file) as [audio|]; simpl.
  - destruct (write_fault env); [|discriminate].
    intros [= _ <-]. right. eauto.
  - intros [= _ <-]. right. eauto.
Qed.

(** X10. A voice request that is answered with a VoiceResponse leaves the
    file system exactly as it found it: the temp file is gone and no
    other path was touched. *)
Theorem chat_voice_success_restores_files
    (env : Env) (file : UploadFile) (w w' : World) (r : VoiceResponse) :
  chat_voice env file w = (Return r, w') ->
  files w' = files w.
Proof.
  intros Hrun.
  destruct (endswith_any (filename file) ALLOWED) eqn:Hok;
    [|rewrite (chat_voice_rejected _ _ _ Hok) in Hrun; discriminate].
  destruct (save_upload env file w) as [[tmp|e] w1] eqn:Hsave;
    [|rewrite (chat_voice_upload_failed _ _ _ _ _ Hok Hsave) in Hrun; discriminate].
  destruct (chat_voice_stored _ _ _ _ _ Hok Hsave) as (audio & _ & _ & Heq).
  destruct (save_upload_inv _ _ _ _ _ Hsave) as (audio' & _ & Hfresh & Hw1).
  rewrite Heq in Hrun. injection Hrun as Hans <-.
  unfold answer in Hans. unfold aftermath.
  destruct (heard env audio) as [t|]; [|discriminate].
  destruct (unlink_fault env); [discriminate|].
  assert (Hdel : delete tmp (files w1) = files w).
  { subst w1. simpl. rewrite insert_insert_eq. apply delete_insert_id, Hfresh. }
  destruct (String.eqb t ""); simpl; exact Hdel.
Qed.

Lemma chat_voice_success_restores_files_witness :
  files (snd (chat_voice greeting_env clip busy_tmp)) = files busy_tmp.
Proof.
  apply (chat_voice_success_restores_files greeting_env clip busy_tmp
           (snd (chat_voice greeting_env clip busy_tmp)) (mkVoice "hello" "Hi!" false)).
  vm_compute. reflexivity.
Defined.

(** X11. Whatever its outcome, chat_voice never alters or removes a file
    that existed before the request. *)
Theorem chat_voice_keeps_other_files
    (env : Env) (file : UploadFile) (w : World) (path content : string) :
  files w !! path = Some content ->
  files (snd (chat_voice env file w)) !! path = Some content.
Proof.
  intros Hpath.
  destruct (endswith_any (filename file) ALLOWED) eqn:Hok;
    [|rewrite (chat_voice_rejected _ _ _ Hok); exact Hpath].
  destruct (save_upload env file w) as [[tmp|e] w1] eqn:Hsave.
  - destruct (chat_voice_stored _ _ _ _ _ Hok Hsave) as (audio & _ & _ & ->).
    destruct (save_upload_inv _ _ _ _ _ Hsave) as (audio' & _ & Hfresh & Hw1).
    assert (Hne : tmp <> path) by congruence.
    assert (Hw1path : files w1 !! path = Some content).
    { subst w1. simpl. rewrite !lookup_insert_ne by exact Hne. exact Hpath. }
    simpl. unfold aftermath.
    destruct (heard env audio) as [t|]; [|exact Hw1path].
    destruct (unlink_fault env); [exact Hw1path|].
    destruct (String.eqb t ""); simpl;
      rewrite lookup_delete_ne by exact Hne; exact Hw1path.
  - rewrite (chat_voice_upload_failed _ _ _ _ _ Hok Hsave). simpl.
    destruct (save_upload_raises _ _ _ _ _ Hsave) as [->|(tmp & Hfresh & ->)];
      [exact Hpath|].
    simpl. rewrite lookup_insert_ne by congruence. exact Hpath.
Qed.

Lemma chat_voice_keeps_other_files_witness :
  files (snd (chat_voice deaf_env clip busy_tmp)) !! "/tmp/other.dat" = Some "keep".
Proof.
  apply (chat_voice_keeps_other_files deaf_env clip busy_tmp "/tmp/other.dat" "keep").
  reflexivity.
Defined.

(** X12. When the temp file has been created and reading the upload or
    writing it out then fails, chat_voice answers 500 "File upload
    failed" without calling the engine, and the temp file is left on
    disk: nothing unlinks it on this path. *)
Theorem failed_write_leaves_temp_file
    (env : Env) (file : UploadFile) (w : World) :
  endswith_any (filename file) ALLOWED = true ->
  create_fault env = None ->
  files w !! (tmp_stem env (files w) +:+ splitext_ext (filename file)) = None ->
  (exists e, read file = Raise e) \/ (exists e, write_fault env = Some e) ->
  fst (chat_voice env file w) = Raise (HTTPException 500 "File upload failed") /\
  is_Some (files (snd (chat_voice env file w))
             !! (tmp_stem env (files w) +:+ splitext_ext (filename file))) /\
  calls (snd (chat_voice env file w)) =
    TempFileCreated (tmp_stem env (files w) +:+ splitext_ext (filename file)) :: calls w.
Proof.
  intros Hok Hcreate Hfresh Hfault.
  assert (Hrun : chat_voice env file w =
    (Raise (HTTPException 500 "File upload failed"),
     mkWorld (<[tmp_stem env (files w) +:+ splitext_ext (filename file) := ""]> (files w))
             (TempFileCreated (tmp_stem env (files w) +:+ splitext_ext (filename file))
                :: calls w))).
  { unfold chat_voice. rewrite Hok.
    unfold save_upload, NamedTemporaryFile, tmp_write. run.
    rewrite Hcreate, Hfresh.
    destruct Hfault as [[e He]|[e He]].
    - rewrite He. reflexivity.
    - destruct (read file); rewrite ?He; reflexivity. }
  rewrite Hrun. simpl. split; [reflexivity|]. split; [|reflexivity].
  rewrite lookup_insert_eq. eauto.
Qed.

Lemma failed_write_leaves_temp_file_witness :
  fst (chat_voice greeting_env broken_upload w0) =
    Raise (HTTPException 500 "File upload failed") /\
  is_Some (files (snd (chat_voice greeting_env broken_upload w0))
             !! (tmp_stem greeting_env (files w0) +:+ splitext_ext (filename broken_upload))) /\
  calls (snd (chat_voice greeting_env broken_upload w0)) =
    TempFileCreated
      (tmp_stem greeting_env (files w0) +:+ splitext_ext (filename broken_upload))
      :: calls w0.
Proof.
  apply (failed_write_leaves_temp_file greeting_env broken_upload w0).
  - reflexivity.
  - reflexivity.
  - reflexivity.
  - left. exists (Exception "ClientDisconnect"). reflexivity.
Defined.

(** ** [chat_voice]: file names *)

Lemma string_app_cons (c : ascii) (s t : string) :
  String c s +:+ t = String c (s +:+ t).
Proof. reflexivity. Qed.

Lemma string_app_assoc (a b c : string) : (a +:+ b) +:+ c = a +:+ (b +:+ c).
Proof.
  induction a as [|x a IH]; [reflexivity|].
  rewrite !string_app_cons, IH. reflexivity.
Qed.

Lemma string_length_app (a b : string) :
  String.length (a +:+ b) = String.length a + String.length b.
Proof.
  induction a as [|x a IH]; [reflexivity|].
  rewrite string_app_cons. simpl. rewrite IH. reflexivity.
Qed.

(** A suffix no longer than [u] is looked for in [u] alone. *)
Lemma endswith_long_prefix (p u suffix : string) :
  String.length suffix <= String.length u ->
  endswith (p +:+ u) suffix = endswith u suffix.
Proof.
  intros Hlen. induction p as [|c p IH]; [reflexivity|].
  rewrite string_app_cons, endswith_unfold, IH.
  destruct (String.eqb (String c (p +:+ u)) suffix) eqn:Heq; [|reflexivity].
  apply String.eqb_eq in Heq. subst suffix. simpl in Hlen.
  rewrite string_length_app in Hlen. lia.
Qed.

Lemma endswith_tail (s : string) (a : ascii) (suffix : string) :
  endswith s (String a suffix) = true -> endswith s suffix = true.
Proof.
  intros [p ->]%endswith_inv.
  change (String a suffix) with (String a "" +:+ suffix).
  rewrite <- string_app_assoc. apply endswith_app.
Qed.

Lemma chat_voice_400_inv env file w detail :
  fst (chat_voice env file w) = Raise (HTTPException 400 detail) ->
  endswith_any (filename file) ALLOWED = false.
Proof.
  destruct (endswith_any (filename file) ALLOWED) eqn:Hok; [|reflexivity].
  destruct (save_upload env file w) as [[tmp|e] w1] eqn:Hsave.
  - destruct (chat_voice_stored _ _ _ _ _ Hok Hsave) as (audio & _ & _ & ->).
    simpl. intros [H|[H|H]]%answer_raises; discriminate.
  - rewrite (chat_voice_upload_failed _ _ _ _ _ Hok Hsave). discriminate.
Qed.

Lemma allowed_last_five (p u : string) :
  5 <= String.length u ->
  endswith_any (p +:+ u) ALLOWED = endswith_any u ALLOWED.
Proof.
  intros Hlen. unfold endswith_any, ALLOWED. simpl.
  rewrite !endswith_long_prefix by (simpl; lia). reflexivity.
Qed.

(** X13. Format validation looks at the last five characters of the file
    name only: putting anything in front of a name of five characters or
    more never changes whether the voice endpoint rejects it with 400. *)
Theorem validation_reads_last_five_characters
    (env : Env) (p u : string) (body : Outcome string) (w : World) :
  5 <= String.length u ->
  ((exists detail,
      fst (chat_voice env (mkUpload (p +:+ u) body) w) = Raise (HTTPException 400 detail)) <->
   (exists detail,
      fst (chat_voice env (mkUpload u body) w) = Raise (HTTPException 400 detail))).
Proof.
  intros Hlen. pose proof (allowed_last_five p u Hlen) as Hsame.
  split; intros [detail H]; apply chat_voice_400_inv in H; cbn [filename] in H; eexists.
  - rewrite chat_voice_rejected; [reflexivity|]. cbn [filename]. rewrite <- Hsame. exact H.
  - rewrite chat_voice_rejected; [reflexivity|]. cbn [filename]. rewrite Hsame. exact H.
Qed.

Lemma validation_reads_last_five_characters_witness :
  (exists detail,
     fst (chat_voice greeting_env (mkUpload ("uploads/monday/" +:+ "a.WAV") (Return "RIFF")) w0)
     = Raise (HTTPException 400 detail)) <->
  (exists detail,
     fst (chat_voice greeting_env (mkUpload "a.WAV" (Return "RIFF")) w0)
     = Raise (HTTPException 400 detail)).
Proof.
  apply (validation_reads_last_five_characters greeting_env "uploads/monday/" "a.WAV"
           (Return "RIFF") w0).
  simpl. lia.
Defined.

Lemma endswith_upper_false (stem upper : string) :
  In upper [".WAV"; ".MP3"; ".OGG"; ".FLAC"] ->
  endswith_any (stem +:+ upper) ALLOWED = false.
Proof.
  intros Hin. unfold endswith_any, ALLOWED. simpl.
  assert (Hflac : endswith (stem +:+ upper) ".flac" = false).
  { destruct (endswith (stem +:+ upper) ".flac") eqn:H; [|reflexivity].
    apply endswith_tail in H.
    simpl in Hin. destruct Hin as [<-|[<-|[<-|[<-|[]]]]];
      rewrite endswith_long_prefix in H by (simpl; lia); discriminate. }
  rewrite Hflac.
  simpl in Hin. destruct Hin as [<-|[<-|[<-|[<-|[]]]]];
    rewrite !endswith_long_prefix by (simpl; lia); reflexivity.
Qed.

(** X14. The extension is compared case-sensitively: a file name ending
    in .WAV, .MP3, .OGG or .FLAC is rejected with 400 before anything is
    stored, whatever comes before the extension. *)
Theorem uppercase_extension_rejected
    (env : Env) (stem upper : string) (body : Outcome string) (w : World) :
  In upper [".WAV"; ".MP3"; ".OGG"; ".FLAC"] ->
  chat_voice env (mkUpload (stem +:+ upper) body) w =
  (Raise (HTTPException 400
     "Unsupported file format. Supported formats: WAV, MP3, OGG, FLAC"), w).
Proof.
  intros Hin. apply chat_voice_rejected. simpl. apply endswith_upper_false, Hin.
Qed.

Lemma uppercase_extension_rejected_witness :
  chat_voice greeting_env (mkUpload ("REC_0001" +:+ ".MP3") (Return "ID3")) w0 =
  (Raise (HTTPException 400
     "Unsupported file format. Supported formats: WAV, MP3, OGG, FLAC"), w0).
Proof.
  apply (uppercase_extension_rejected greeting_env "REC_0001" ".MP3" (Return "ID3") w0).
  simpl. auto.
Defined.

Lemma last_component_plain (e : string) :
  existsb (Ascii.eqb "/"%char) (String.list_ascii_of_string e) = false ->
  last_component e = e.
Proof.
  induction e as [|c e IH]; [reflexivity|].
  cbn [last_component existsb String.list_ascii_of_string].
  intros [Hc He]%orb_false_iff. rewrite He.
  rewrite Ascii.eqb_sym, Hc. reflexivity.
Qed.

Lemma has_sep_app (s e : string) :
  existsb (Ascii.eqb "/"%char) (String.list_ascii_of_string e) = false ->
  existsb (Ascii.eqb "/"%char) (String.list_ascii_of_string (s +:+ e)) =
  existsb (Ascii.eqb "/"%char) (String.list_ascii_of_string s).
Proof.
  intros He. induction s as [|c s IH]; [exact He|].
  rewrite string_app_cons. cbn [existsb String.list_ascii_of_string].
  rewrite IH. reflexivity.
Qed.

Lemma last_component_app (s e : string) :
  existsb (Ascii.eqb "/"%char) (String.list_ascii_of_string e) = false ->
  last_component (s +:+ e) = last_component s +:+ e.
Proof.
  intros He. induction s as [|c s IH].
  - apply last_component_plain, He.
  - rewrite string_app_cons. cbn [last_component]. rewrite (has_sep_app s e He).
    destruct (existsb _ (String.list_ascii_of_string s)); [exact IH|].
    destruct (Ascii.eqb c "/"); reflexivity.
Qed.

Lemma ext_of_component_no_dot (b : bool) (s : string) :
  existsb (Ascii.eqb "."%char) (String.list_ascii_of_string s) = false ->
  ext_of_component b s = "".
Proof.
  revert b. induction s as [|c s IH]; intros b; [reflexivity|].
  cbn [ext_of_component existsb String.list_ascii_of_string].
  intros [Hc Hs]%orb_false_iff. rewrite (IH _ Hs).
  rewrite Ascii.eqb_sym, Hc. reflexivity.
Qed.

Lemma ext_of_component_app (b : bool) (comp ext : string) :
  existsb (Ascii.eqb "."%char) (String.list_ascii_of_string ext) = false ->
  b || existsb (fun c => negb (Ascii.eqb c "."%char))
         (String.list_ascii_of_string comp) = true ->
  ext_of_component b (comp +:+ String "." ext) = String "." ext.
Proof.
  intros Hext. revert b. induction comp as [|c comp IH]; intros b Hb.
  - cbn [existsb String.list_ascii_of_string] in Hb. rewrite orb_false_r in Hb. subst b.
    change ("" +:+ String "." ext) with (String "." ext).
    cbn [ext_of_component].
    rewrite (ext_of_component_no_dot _ _ Hext), Ascii.eqb_refl. reflexivity.
  - rewrite string_app_cons. cbn [ext_of_component]. rewrite IH; [reflexivity|].
    cbn [existsb String.list_ascii_of_string] in Hb. rewrite orb_assoc in Hb. exact Hb.
Qed.

(** X15. The temp file keeps the upload's extension: for a file name
    stem.ext whose extension holds no dot or slash and whose stem has,
    in its last path component, a character other than a dot, the path
    save_upload stores the upload under ends in .ext. *)
Theorem temp_file_keeps_extension
    (env : Env) (file : UploadFile) (w w1 : World) (tmp stem ext : string) :
  filename file = stem +:+ String "." ext ->
  existsb (Ascii.eqb "."%char) (String.list_ascii_of_string ext) = false ->
  existsb (Ascii.eqb "/"%char) (String.list_ascii_of_string ext) = false ->
  existsb (fun c => negb (Ascii.eqb c "."%char))
    (String.list_ascii_of_string (last_component stem)) = true ->
  save_upload env file w = (Return tmp, w1) ->
  tmp = tmp_stem env (files w) +:+ String "." ext /\
  endswith tmp (String "." ext) = true.
Proof.
  intros Hname Hdot Hsep Hstem Hsave.
  assert (Hext : splitext_ext (filename file) = String "." ext).
  { rewrite Hname. unfold splitext_ext.
    rewrite last_component_app by (simpl; exact Hsep).
    apply ext_of_component_app; [exact Hdot | exact Hstem]. }
  assert (Htmp : tmp = tmp_stem env (files w) +:+ String "." ext).
  { revert Hsave. unfold save_upload, NamedTemporaryFile, tmp_write. run.
    rewrite Hext.
    destruct (create_fault env); [discriminate|].
    destruct (files w !! _); [discriminate|].
    destruct (read file); [|discriminate].
    destruct (write_fault env); [discriminate|].
    intros [= <- _]. reflexivity. }
  split; [exact Htmp|]. rewrite Htmp. apply endswith_app.
Qed.

Lemma temp_file_keeps_extension_witness :
  "/tmp/tmpa1b2c3.flac" = tmp_stem greeting_env (files w0) +:+ String "." "flac" /\
  endswith "/tmp/tmpa1b2c3.flac" (String "." "flac") = true.
Proof.
  apply (temp_file_keeps_extension greeting_env
           (mkUpload "memos/2024.05/note.v2.flac" (Return "fLaC")) w0
           (snd (save_upload greeting_env
                   (mkUpload "memos/2024.05/note.v2.flac" (Return "fLaC")) w0))
           "/tmp/tmpa1b2c3.flac" "memos/2024.05/note.v2" "flac").
  - reflexivity.
  - reflexivity.
  - reflexivity.
  - reflexivity.
  - vm_compute. reflexivity.
Defined.

(** ** Start-up *)

Lemma initialize_models_inv lib cfg g out g' :
  initialize_models lib cfg g = (out, g') ->
  (exists e, out = Raise e /\ g_agent_executor g' = g_agent_executor g) \/
  (exists engine llm search agent,
     out = Return tt /\
     initialize_agent lib [mkTool "WebSearch" search SEARCH_DESCRIPTION] llm
       "zero-shot-react-description" true true = Return agent /\
     g' = mkGlobals (Some engine) (Some llm) (Some search) (Some agent)).
Proof.
  unfold initialize_models.
  destruct (load_model lib _) as [engine|e]; [|intros [= <- <-]; eauto].
  destruct (ChatGroq lib _ _ _) as [llm|e]; [|intros [= <- <-]; eauto].
  destruct (GoogleSerperAPIWrapper lib _) as [search|e]; [|intros [= <- <-]; eauto].
  destruct (initialize_agent lib _ _ _ _ _) as [agent|e] eqn:Hagent;
    [|intros [= <- <-]; eauto].
  intros [= <- <-]. right. exists engine, llm, search, agent. auto.
Qed.

(** X16. Readiness comes in the order of construction.  After
    initialize_models has run on the freshly imported module, whatever
    the constructors did: an agent is in place exactly when the coroutine
    returned; with an agent, the engine, the client and the search wrapper
    are in place too; and the engine is in place whenever the client is. *)
Theorem readiness_is_ordered (lib : Libraries) (cfg : Settings) :
  let out := fst (initialize_models lib cfg unset_globals) in
  let g := snd (initialize_models lib cfg unset_globals) in
  (out = Return tt <-> g_agent_executor g <> None) /\
  (g_agent_executor g <> None ->
   g_whisper_model g <> None /\ g_groq_llm g <> None /\ g_search_tool g <> None) /\
  (g_search_tool g <> None -> g_groq_llm g <> None) /\
  (g_groq_llm g <> None -> g_whisper_model g <> None).
Proof.
  unfold initialize_models, unset_globals. simpl.
  destruct (load_model lib _) as [engine|e]; simpl;
    [|repeat split; try congruence; discriminate].
  destruct (ChatGroq lib _ _ _) as [llm|e]; simpl;
    [|repeat split; try congruence; discriminate].
  destruct (GoogleSerperAPIWrapper lib _) as [search|e]; simpl;
    [|repeat split; try congruence; discriminate].
  destruct (initialize_agent lib _ _ _ _ _) as [agent|e]; simpl;
    repeat split; try congruence; discriminate.
Qed.

Lemma readiness_is_ordered_witness :
  g_whisper_model (snd (initialize_models good_libraries no_keys unset_globals)) <> None /\
  g_groq_llm (snd (initialize_models good_libraries no_keys unset_globals)) <> None /\
  g_search_tool (snd (initialize_models good_libraries no_keys unset_globals)) <> None.
Proof.
  apply (proj1 (proj2 (readiness_is_ordered good_libraries no_keys))).
  discriminate.
Defined.

(** X17. A failed start-up is permanent for the text endpoint and for
    speech: when initialize_models ends with an exception on the freshly
    imported module, every chat_text request is answered 503, and the
    only VoiceResponse chat_voice can still return is the clarification
    for an empty transcript. *)
Theorem failed_startup_serves_no_answer
    (lib : Libraries) (cfg : Settings) (e : PyExc) (g : Globals) (os : Env) :
  initialize_models lib cfg unset_globals = (Raise e, g) ->
  (forall request w,
     fst (chat_text (with_globals g os) request w) =
     Raise (HTTPException 503 "Models not initialized yet")) /\
  (forall file w r,
     fst (chat_voice (with_globals g os) file w) = Return r ->
     r = mkVoice "" "I didn't catch that. Could you please repeat?" false).
Proof.
  intros Hinit.
  assert (Hagent : agent_executor (with_globals g os) = None).
  { destruct (initialize_models_inv _ _ _ _ _ Hinit)
      as [(e' & _ & Hsame)|(engine & llm & search & agent & Hout & _)];
      [|discriminate].
    unfold with_globals. cbn [agent_executor]. rewrite Hsame. reflexivity. }
  split.
  - intros request w. unfold chat_text, mbind, M_bind, bind.
    rewrite process_query_run. unfold routed. rewrite Hagent. reflexivity.
  - intros file w r Hrun.
    destruct (endswith_any (filename file) ALLOWED) eqn:Hok;
      [|rewrite (chat_voice_rejected _ _ _ Hok) in Hrun; discriminate].
    destruct (save_upload (with_globals g os) file w) as [[tmp|e'] w1] eqn:Hsave;
      [|rewrite (chat_voice_upload_failed _ _ _ _ _ Hok Hsave) in Hrun; discriminate].
    destruct (chat_voice_stored _ _ _ _ _ Hok Hsave) as (audio & _ & _ & Heq).
    rewrite Heq in Hrun. simpl in Hrun. unfold answer in Hrun.
    destruct (heard _ audio) as [t|]; [|discriminate].
    destruct (unlink_fault _); [discriminate|].
    destruct (String.eqb t ""); [injection Hrun as <-; reflexivity|].
    unfold routed in Hrun. rewrite Hagent in Hrun. discriminate.
Qed.

Lemma failed_startup_serves_no_answer_witness :
  (forall request w,
     fst (chat_text
            (with_globals (snd (initialize_models keyless_libraries no_keys unset_globals))
               cold_env) request w) =
     Raise (HTTPException 503 "Models not initialized yet")) /\
  (forall file w r,
     fst (chat_voice
            (with_globals (snd (initialize_models keyless_libraries no_keys unset_globals))
               cold_env) file w) = Return r ->
     r = mkVoice "" "I didn't catch that. Could you please repeat?" false).
Proof.
  apply (failed_startup_serves_no_answer keyless_libraries no_keys
           (Exception "GroqError")).
  reflexivity.
Defined.

(** X18. initialize_models never takes a capability away: a global that
    was set before the call is still set after it, whether the call
    returns or raises. *)
Theorem initialize_models_keeps_readiness
    (lib : Libraries) (cfg : Settings) (g : Globals) :
  let g' := snd (initialize_models lib cfg g) in
  (g_whisper_model g <> None -> g_whisper_model g' <> None) /\
  (g_groq_llm g <> None -> g_groq_llm g' <> None) /\
  (g_search_tool g <> None -> g_search_tool g' <> None) /\
  (g_agent_executor g <> None -> g_agent_executor g' <> None).
Proof.
  unfold initialize_models.
  destruct (load_model lib _) as [engine|e]; simpl; [|auto].
  destruct (ChatGroq lib _ _ _) as [llm|e]; simpl;
    [|repeat split; auto; discriminate].
  destruct (GoogleSerperAPIWrapper lib _) as [search|e]; simpl;
    [|repeat split; auto; discriminate].
  destruct (initialize_agent lib _ _ _ _ _) as [agent|e]; simpl;
    repeat split; auto; discriminate.
Qed.

Lemma initialize_models_keeps_readiness_witness :
  g_agent_executor
    (snd (initialize_models keyless_libraries no_keys
            (snd (initialize_models good_libraries no_keys unset_globals)))) <> None.
Proof.
  apply (proj2 (proj2 (proj2
           (initialize_models_keeps_readiness keyless_libraries no_keys
              (snd (initialize_models good_libraries no_keys unset_globals)))))).
  discriminate.
Defined.

(** X19. When initialize_models returns, the agent it stored was built
    by initialize_agent from a list of exactly one tool, named
    "WebSearch" -- the identifier process_query looks for in the trace --
    and running the search wrapper, with the trace of intermediate steps
    switched on. *)
Theorem agent_has_one_search_tool
    (lib : Libraries) (cfg : Settings) (g g' : Globals) :
  initialize_models lib cfg g = (Return tt, g') ->
  exists llm search agent,
    g_groq_llm g' = Some llm /\
    g_search_tool g' = Some search /\
    g_agent_executor g' = Some agent /\
    initialize_agent lib [mkTool SEARCH_TOOL search SEARCH_DESCRIPTION] llm
      "zero-shot-react-description" true true = Return agent.
Proof.
  intros Hinit.
  destruct (initialize_models_inv _ _ _ _ _ Hinit)
    as [(e & He & _)|(engine & llm & search & agent & _ & Hbuilt & ->)];
    [discriminate|].
  exists llm, search, agent. auto.
Qed.

Lemma agent_has_one_search_tool_witness :
  exists llm search agent,
    g_groq_llm (snd (initialize_models good_libraries no_keys unset_globals)) = Some llm /\
    g_search_tool (snd (initialize_models good_libraries no_keys unset_globals)) = Some search /\
    g_agent_executor (snd (initialize_models good_libraries no_keys unset_globals)) = Some agent /\
    initialize_agent good_libraries [mkTool SEARCH_TOOL search SEARCH_DESCRIPTION] llm
      "zero-shot-react-description" true true = Return agent.
Proof.
  apply (agent_has_one_search_tool good_libraries no_keys unset_globals
           (snd (initialize_models good_libraries no_keys unset_globals))).
  reflexivity.
Defined.

(** ** The front end *)

Lemma process_audio_cases post url audio name shown :
  let target := post (url +:+ "/chat/voice") (name, audio, "audio/wav") in
  (exists response data,
     target = Return response /\ status_code response = 200%Z /\
     resp_json response = Return data /\
     process_audio post url audio name shown = (Return data, shown)) \/
  (exists response,
     target = Return response /\ status_code response <> 200%Z /\
     process_audio post url audio name shown =
     (Return JNull, BackendError (status_code response) (resp_text response) :: shown)) \/
  (exists e,
     (target = Raise e \/
      exists response, target = Return response /\ status_code response = 200%Z /\
                       resp_json response = Raise e) /\
     process_audio post url audio name shown =
     (Return JNull,
      (if is_ConnectionError e then ConnectionFailed else ErrorOccurred e) :: shown)).
Proof.
  unfold process_audio. simpl.
  destruct (post _ _) as [response|e].
  - destruct (Z.eqb_spec (status_code response) 200) as [H200|H200].
    + destruct (resp_json response) as [data|e] eqn:Hjson.
      * left. exists response, data. auto.
      * right. right. exists e. split; [right; eauto|].
        destruct (is_ConnectionError e); reflexivity.
    + right. left. exists response. auto.
  - right. right. exists e. split; [auto|].
    destruct (is_ConnectionError e); reflexivity.
Qed.


(** A 200 response whose body is the JSON [null]: [process_audio]
    returns [None] and shows nothing. *)
Example process_audio_null_body :
  process_audio backend_null "http://localhost:8000" "RIFF" "recording.wav" []
  = (Return JNull, []).
Proof. reflexivity. Qed.

(** X20. process_audio never raises, whatever requests.post and
    response.json() do.  When the POST comes back with status 200 and a
    body that parses, it returns that body as it is (None for a body
    null) and shows no error; in every other case it returns None and
    shows exactly one error.  So a result other than None is always the
    body of a 200 response. *)
Theorem process_audio_returns_body_only_on_200
    (post : string -> string * string * string -> Outcome HttpResponse)
    (url audio name : string) (shown : list Notice) :
  exists result shown',
    process_audio post url audio name shown = (Return result, shown') /\
    (forall response data,
       post (url +:+ "/chat/voice") (name, audio, "audio/wav") = Return response ->
       status_code response = 200%Z ->
       resp_json response = Return data ->
       result = data /\ shown' = shown) /\
    (~ (exists response data,
          post (url +:+ "/chat/voice") (name, audio, "audio/wav") = Return response /\
          status_code response = 200%Z /\ resp_json response = Return data) ->
     result = JNull /\ exists notice, shown' = notice :: shown) /\
    (result <> JNull ->
     exists response,
       post (url +:+ "/chat/voice") (name, audio, "audio/wav") = Return response /\
       status_code response = 200%Z /\ resp_json response = Return result /\
       shown' = shown).
Proof.
  destruct (process_audio_cases post url audio name shown)
    as [(response & data & Hpost & H200 & Hjson & ->)
       |[(response & Hpost & H200 & ->)|(e & Hcause & ->)]]; simpl in *.
  - exists data, shown. split; [reflexivity|]. split; [|split].
    + intros response' data' Hpost' _ Hjson'.
      rewrite Hpost in Hpost'. injection Hpost' as <-.
      rewrite Hjson in Hjson'. injection Hjson' as <-. auto.
    + intros Hnot. exfalso. apply Hnot. eauto.
    + intros _. exists response. auto.
  - eexists JNull, _. split; [reflexivity|]. split; [|split].
    + intros response' data' Hpost' H200' _.
      rewrite Hpost in Hpost'. injection Hpost' as <-. contradiction.
    + intros _. eauto.
    + intros Hne. exfalso. apply Hne. reflexivity.
  - eexists JNull, _. split; [reflexivity|]. split; [|split].
    + intros response' data' Hpost' H200' Hjson'.
      destruct Hcause as [Hraise|(response & Hpost & _ & Hjson)]; [congruence|].
      rewrite Hpost in Hpost'. injection Hpost' as <-. congruence.
    + intros _. eauto.
    + intros Hne. exfalso. apply Hne. reflexivity.
Qed.

Lemma process_audio_returns_body_only_on_200_witness :
  exists result shown',
    process_audio backend_ok "http://localhost:8000" "RIFF" "recording.wav" []
      = (Return result, shown') /\
    (forall response data,
       backend_ok ("http://localhost:8000" +:+ "/chat/voice")
         ("recording.wav", "RIFF", "audio/wav") = Return response ->
       status_code response = 200%Z ->
       resp_json response = Return data ->
       result = data /\ shown' = []) /\
    (~ (exists response data,
          backend_ok ("http://localhost:8000" +:+ "/chat/voice")
            ("recording.wav", "RIFF", "audio/wav") = Return response /\
          status_code response = 200%Z /\ resp_json response = Return data) ->
     result = JNull /\ exists notice, shown' = notice :: []) /\
    (result <> JNull ->
     exists response,
       backend_ok ("http://localhost:8000" +:+ "/chat/voice")
         ("recording.wav", "RIFF", "audio/wav") = Return response /\
       status_code response = 200%Z /\ resp_json response = Return result /\
       shown' = []).
Proof.
  apply (process_audio_returns_body_only_on_200 backend_ok
           "http://localhost:8000" "RIFF" "recording.wav" []).
Defined.


